(** * ESG dashboard (arnaldo.py): filter, KPI, ranking and trend pipeline

    A shallow embedding of the Streamlit script [arnaldo.py] and of the
    pandas operations it calls, followed by the properties of the
    filter-state and derived-metrics pipeline.

    Numbers.  A float64 cell is modelled as an extended rational: a finite
    rational, plus or minus infinity, or NaN (pandas' marker for a missing
    value).  Arithmetic is exact (no rounding, no overflow) and zero is
    unsigned; the special values follow IEEE 754 as numpy applies it
    (x/0 is infinite, 0/0 and inf-inf are NaN, every comparison with NaN
    is false).

    Scope.  A sum or a mean of several cells is the exact rational, of
    which the code computes the float64 rounding, and a quotient by zero
    takes the sign of its numerator, as for the positive zero.  The
    score columns of a table hold numbers, its name and region columns
    hold text; an integer cell is unbounded; the checks that Streamlit
    makes on the arguments of a widget are not part of the model. *)

From Stdlib Require Import QArith Qround Qabs ZArith List Bool Ascii String Lia.
From Stdlib Require Import Sorted Permutation.
From Stdlib Require OrderedTypeEx.
From stdpp Require Import base option list sorting strings gmap.

Local Open Scope string_scope.
Local Open Scope list_scope.
Local Open Scope Z_scope.

(* ===================================================================== *)
(** ** Extended rationals: the float64 cells of the table                *)
(* ===================================================================== *)

Module Num.

Inductive num : Type :=
| Fin (q : Q)
| PInf
| NInf
| NaN.

Definition of_Z (z : Z) : num := Fin (inject_Z z).

Definition zero : num := Fin 0.

(** [pd.isna] on a float cell. *)
Definition is_nan (x : num) : bool :=
  match x with NaN => true | _ => false end.

Definition is_fin (x : num) : bool :=
  match x with Fin _ => true | _ => false end.

Definition neg (x : num) : num :=
  match x with
  | Fin q => Fin (Qred (- q))
  | PInf => NInf
  | NInf => PInf
  | NaN => NaN
  end.

Definition add (x y : num) : num :=
  match x, y with
  | NaN, _ | _, NaN => NaN
  | Fin a, Fin b => Fin (Qred (a + b))
  | PInf, NInf | NInf, PInf => NaN
  | PInf, _ | _, PInf => PInf
  | NInf, _ | _, NInf => NInf
  end.

Definition sub (x y : num) : num := add x (neg y).

(** The sign of a rational as an infinity, NaN for zero: the value of
    [q / 0.0] for the positive zero.  The model has no negative zero,
    by which the code gives the infinity of the opposite sign. *)
Definition inf_of_sign (q : Q) : num :=
  match (q ?= 0)%Q with
  | Eq => NaN
  | Gt => PInf
  | Lt => NInf
  end.

(** numpy true division: no exception on a zero divisor. *)
Definition div (x y : num) : num :=
  match x, y with
  | NaN, _ | _, NaN => NaN
  | Fin a, Fin b =>
      if Qeq_bool b 0 then inf_of_sign a else Fin (Qred (a / b))
  | Fin _, (PInf | NInf) => Fin 0
  | PInf, Fin b => if Qle_bool 0 b then PInf else NInf
  | NInf, Fin b => if Qle_bool 0 b then NInf else PInf
  | (PInf | NInf), (PInf | NInf) => NaN
  end.

(** [x <= y]; false as soon as one side is NaN. *)
Definition leb (x y : num) : bool :=
  match x, y with
  | NaN, _ | _, NaN => false
  | NInf, _ => true
  | _, PInf => true
  | Fin a, Fin b => Qle_bool a b
  | _, _ => false
  end.

(** [x >= y]. *)
Definition geb (x y : num) : bool := leb y x.

(** [x == y] on floats; NaN is different from itself. *)
Definition eqb (x y : num) : bool := leb x y && leb y x.

(** Python truthiness of a float, [bool(x)]: only zero is falsy, NaN and
    the infinities are truthy. *)
Definition truthy (x : num) : bool :=
  match x with
  | Fin q => negb (Qeq_bool q 0)
  | _ => true
  end.

(** [Series.sum()] with the default [skipna=True]: missing cells are
    left out, the empty sum is 0. *)
Definition sum (xs : list num) : num :=
  fold_left add (List.filter (fun x => negb (is_nan x)) xs) zero.

(** Number of cells that are not missing, [Series.count()]. *)
Definition count (xs : list num) : nat :=
  length (List.filter (fun x => negb (is_nan x)) xs).

(** [Series.mean()] with the default [skipna=True]: the sum of the cells
    that are not missing over their number, NaN when there is none. *)
Definition mean (xs : list num) : num :=
  match count xs with
  | O => NaN
  | S _ => div (sum xs) (of_Z (Z.of_nat (count xs)))
  end.

(** [Series.min()] and [Series.max()], missing cells left out, NaN on an
    empty column. *)
Definition min2 (x y : num) : num := if leb x y then x else y.
Definition max2 (x y : num) : num := if leb x y then y else x.

Definition extremum (pick : num -> num -> num) (xs : list num) : num :=
  match List.filter (fun x => negb (is_nan x)) xs with
  | [] => NaN
  | x :: rest => fold_left pick rest x
  end.

Definition min (xs : list num) : num := extremum min2 xs.
Definition max (xs : list num) : num := extremum max2 xs.

End Num.

Export Num (num, Fin, PInf, NInf, NaN).

(* ===================================================================== *)
(** ** Python format specifications used by the KPI cards               *)
(* ===================================================================== *)

Module Fmt.

Definition digit (d : Z) : ascii := ascii_of_nat (48 + Z.to_nat d).

Fixpoint digits_go (fuel : nat) (n : Z) (acc : list ascii) : list ascii :=
  match fuel with
  | O => acc
  | S fuel' =>
      let acc' := digit (n mod 10) :: acc in
      if n <? 10 then acc' else digits_go fuel' (n / 10) acc'
  end.

(** Decimal digits of a natural number given as a [Z], most significant
    first. *)
Definition digits (n : Z) : list ascii :=
  digits_go (S (Z.to_nat (Z.log2 n))) n [].

(** The [,] option: a comma every three digits counted from the right. *)
Fixpoint group3_rev (ds : list ascii) : list ascii :=
  match ds with
  | a :: b :: c :: ((_ :: _) as rest) =>
      a :: b :: c :: ","%char :: group3_rev rest
  | _ => ds
  end.

Definition group3 (ds : list ascii) : list ascii :=
  rev (group3_rev (rev ds)).

Definition pad_left (width : nat) (ds : list ascii) : list ascii :=
  repeat "0"%char (width - length ds)%nat ++ ds.

(** Rounding to the nearest integer, halves to the even neighbour. *)
Definition round_half_even (q : Q) : Z :=
  let f := Qfloor q in
  match (q - inject_Z f ?= 1 # 2)%Q with
  | Lt => f
  | Gt => f + 1
  | Eq => if Z.even f then f else f + 1
  end.

Definition str (cs : list ascii) : string := string_of_list_ascii cs.

(** [f"{n:,}"] or [f"{n}"] for an [int]. *)
Definition fmt_int (comma : bool) (n : Z) : string :=
  let ds := digits (Z.abs n) in
  (if n <? 0 then "-" else "") +:+ str (if comma then group3 ds else ds).

(** [f"{x:.pf}"] and [f"{x:,.pf}"] for a [float]. *)
Definition fmt_float (comma : bool) (p : nat) (x : num) : string :=
  match x with
  | NaN => "nan"
  | PInf => "inf"
  | NInf => "-inf"
  | Fin q =>
      let scale := 10 ^ Z.of_nat p in
      let n := round_half_even (Qabs q * inject_Z scale) in
      let ip := digits (n / scale) in
      let fp := pad_left p (digits (n mod scale)) in
      (if Qle_bool 0 q then "" else "-")
        +:+ str (if comma then group3 ip else ip)
        +:+ (match p with O => "" | S _ => "." +:+ str fp end)
  end.

End Fmt.

(* ===================================================================== *)
(** ** Exceptions, rendered elements and the script monad               *)
(* ===================================================================== *)

Inductive exn : Type :=
| KeyError (key : string)     (* a column or key that is not there *)
| ValueError (msg : string)   (* [astype(int)] on a cell with no integer *)
| TypeError (msg : string)    (* an object of a shape the statement cannot use *)
| ReadError (msg : string).   (* [pd.read_excel] could not read the file *)

(** [str(e)]. *)
Definition exn_str (e : exn) : string :=
  match e with
  | KeyError k => "'" +:+ k +:+ "'"
  | ValueError m => m
  | TypeError m => m
  | ReadError m => m
  end.

(** One observation of the table after [load_data]. *)
Record row : Type := {
  Nome_Compania : string;
  Regiao : string;
  Ano : Z;
  Receita : num;
  MargemLucro : num;
  Emissao_Carbono : num;
  ESG_Geral : num;
  ESG_Ambiental : num;
  ESG_Social : num;
  ESG_Governanca : num
}.

(** A row of [df_filtered]: the row of [df] it copies and the added
    column. *)
Record vrow : Type := {
  base_row : row;
  Emissao_por_Receita : num
}.

(** A row of [df_trend]: the two key columns after [reset_index] and the
    four aggregated columns. *)
Record trow : Type := {
  t_Ano : Z;
  t_Regiao : string;
  t_ESG_Geral : num;
  t_Receita : num;
  t_Emissao_Carbono : num;
  t_Emissao_por_Receita : num
}.

(** A DataFrame: its column labels and its rows in index order. *)
Record frame (R : Type) : Type := {
  columns : list string;
  rows : list R
}.
Arguments columns {R} _.
Arguments rows {R} _.

(** [pd.DataFrame()]: no column, no row. *)
Definition empty_frame {R : Type} : frame R := {| columns := []; rows := [] |}.

(** [df.empty]: one of the two axes has length 0. *)
Definition empty {R : Type} (df : frame R) : bool :=
  match columns df, rows df with
  | _ :: _, _ :: _ => false
  | _, _ => true
  end.

(** What the script hands to Streamlit, in call order.  Calls that carry
    no data of the pipeline (page configuration, CSS, titles, subheaders,
    tab containers) are left out. *)
Inductive element : Type :=
| Error (msg : string)                                   (* st.error *)
| Warning (msg : string)                                 (* st.warning *)
| Metric (label value : string) (delta : option string)  (* st.metric *)
| Bar (title : string) (data : list vrow)                (* px.bar *)
| Line (title : string) (data : list trow)               (* px.line *)
| Area (title : string) (data : list trow)               (* px.area *)
| Radar (title : string) (r : list num).                 (* go.Scatterpolar *)

(** A run of a piece of the script: what it rendered, and either the
    exception that left it or its value. *)
Definition M (A : Type) : Type := (list element * (exn + A))%type.

Definition ret {A : Type} (a : A) : M A := ([], inr a).
Definition raise {A : Type} (e : exn) : M A := ([], inl e).
Definition emit (e : element) : M unit := ([e], inr tt).

Definition bind {A B : Type} (m : M A) (k : A -> M B) : M B :=
  match m with
  | (out, inl e) => (out, inl e)
  | (out, inr a) => let (out', r) := k a in (out ++ out', r)
  end.

(** [try: body except Exception as e: handler(e)]. *)
Definition try_except {A : Type} (body : M A) (handler : exn -> M A) : M A :=
  match body with
  | (out, inl e) => let (out', r) := handler e in (out ++ out', r)
  | (out, inr a) => (out, inr a)
  end.

Notation "x <- m ;; k" := (bind m (fun x => k))
  (at level 100, m at next level, right associativity).
Notation "m ;;; k" := (bind m (fun _ => k))
  (at level 100, right associativity).

Fixpoint mapM {A B : Type} (f : A -> M B) (l : list A) : M (list B) :=
  match l with
  | [] => ret []
  | a :: l' => b <- f a ;; bs <- mapM f l' ;; ret (b :: bs)
  end.

(** [df[name]]: the column when the frame has the label, [KeyError]
    otherwise. *)
Definition col {R A : Type} (name : string) (field : R -> A) (df : frame R)
  : M (list A) :=
  if bool_decide (name ∈ columns df) then ret (map field (rows df))
  else raise (KeyError name).

(* ===================================================================== *)
(** ** load_data                                                          *)
(* ===================================================================== *)

Module Raw.

(** A cell as [pd.read_excel] delivers it; a blank cell is [CFloat NaN]. *)
Inductive cell : Type :=
| CInt (z : Z)
| CFloat (x : num)
| CText (s : string).

(** A row of the sheet.  The four columns that [load_data] converts hold
    raw cells; the score columns are numeric, the name and the region
    are text. *)
Record row : Type := {
  Nome_Compania : string;
  Regiao : string;
  Ano : cell;
  Receita : cell;
  MargemLucro : cell;
  Emissao_Carbono : cell;
  ESG_Geral : num;
  ESG_Ambiental : num;
  ESG_Social : num;
  ESG_Governanca : num
}.

End Raw.

(** What [pd.read_excel('dataset_esg_sem_2015.xlsx')] does: it raises, or
    it returns a sheet. *)
Inductive source : Type :=
| Unreadable (msg : string)
| Sheet (sheet : frame Raw.row).

Section Loader.

(** Python's reading of a text cell as an integer ([int(s)]) and as a
    float ([pd.to_numeric]); [None] when the text is not a number. *)
Variable int_of_text : string -> option Z.
Variable float_of_text : string -> option num.

Definition truncate (q : Q) : Z :=
  if Qle_bool 0 q then Qfloor q else Qceiling q.

(** One cell under [astype(int)].  The result is an unbounded integer:
    a value outside the range of int64, which pandas wraps or refuses,
    is converted here. *)
Definition astype_int (c : Raw.cell) : M Z :=
  match c with
  | Raw.CInt z => ret z
  | Raw.CFloat (Fin q) => ret (truncate q)
  | Raw.CFloat _ =>
      raise (ValueError "Cannot convert non-finite values (NA or inf) to integer")
  | Raw.CText s =>
      match int_of_text s with
      | Some z => ret z
      | None => raise (ValueError ("invalid literal for int() with base 10: '" +:+ s +:+ "'"))
      end
  end.

(** One cell under [pd.to_numeric(..., errors='coerce')]. *)
Definition to_numeric (c : Raw.cell) : num :=
  match c with
  | Raw.CInt z => Num.of_Z z
  | Raw.CFloat x => x
  | Raw.CText s =>
      match float_of_text s with
      | Some x => x
      | None => NaN
      end
  end.

Definition read_excel (src : source) : M (frame Raw.row) :=
  match src with
  | Unreadable msg => raise (ReadError msg)
  | Sheet sh => ret sh
  end.

Definition typed_row (r : Raw.row) (ano : Z) (receita margem emissao : num) : row :=
  {| Nome_Compania := Raw.Nome_Compania r;
     Regiao := Raw.Regiao r;
     Ano := ano;
     Receita := receita;
     MargemLucro := margem;
     Emissao_Carbono := emissao;
     ESG_Geral := Raw.ESG_Geral r;
     ESG_Ambiental := Raw.ESG_Ambiental r;
     ESG_Social := Raw.ESG_Social r;
     ESG_Governanca := Raw.ESG_Governanca r |}.

Fixpoint zip_rows (rs : list Raw.row) (anos : list Z) (recs margs emis : list num)
  : list row :=
  match rs, anos, recs, margs, emis with
  | r :: rs', a :: anos', x :: recs', m :: margs', e :: emis' =>
      typed_row r a x m e :: zip_rows rs' anos' recs' margs' emis'
  | _, _, _, _, _ => []
  end.

(** [df.dropna(subset=['ESG_Geral', 'Receita'])]. *)
Definition dropna (rs : list row) : list row :=
  List.filter
    (fun r => negb (Num.is_nan (ESG_Geral r)) && negb (Num.is_nan (Receita r)))
    rs.

(** The body of the [try] in [load_data]. *)
Definition load_body (src : source) : M (frame row) :=
  df <- read_excel src ;;
  ano_raw <- col "Ano" Raw.Ano df ;;
  ano <- mapM astype_int ano_raw ;;
  receita_raw <- col "Receita" Raw.Receita df ;;
  margem_raw <- col "MargemLucro" Raw.MargemLucro df ;;
  emissao_raw <- col "Emissao_Carbono" Raw.Emissao_Carbono df ;;
  _ <- col "ESG_Geral" Raw.ESG_Geral df ;;
  ret {| columns := columns df;
         rows := dropna (zip_rows (rows df) ano
                           (map to_numeric receita_raw)
                           (map to_numeric margem_raw)
                           (map to_numeric emissao_raw)) |}.

Definition load_data (src : source) : M (frame row) :=
  try_except (load_body src)
    (fun e =>
       emit (Error ("Erro ao carregar dados: " +:+ exn_str e)) ;;;
       ret empty_frame).

End Loader.

(* ===================================================================== *)
(** ** st.session_state                                                   *)
(* ===================================================================== *)

Module Session.

(** Python objects live in a heap and the session dictionary maps keys to
    their addresses, so that an assignment [d[k] = obj] shares the object
    instead of copying it. *)
Abbreviation loc := nat.

Inductive pyobj : Type :=
| OTuple (a b : num)               (* a pair of numbers, immutable *)
| OList (l : list string)          (* a list of strings, mutable *)
| ODict (d : list (string * loc)). (* a dict in insertion order *)

Record state : Type := {
  bindings : gmap string loc;
  heap : list pyobj
}.

(** A new session. *)
Definition fresh : state := {| bindings := ∅; heap := [] |}.

(** A new object; its address is the next free one. *)
Definition alloc (o : pyobj) (st : state) : loc * state :=
  (length (heap st), {| bindings := bindings st; heap := heap st ++ [o] |}).

(** [key in st.session_state]. *)
Definition contains (key : string) (st : state) : bool :=
  bool_decide (is_Some (bindings st !! key)).

(** [st.session_state[key] = obj], [obj] given by its address. *)
Definition setitem (key : string) (l : loc) (st : state) : state :=
  {| bindings := <[key := l]> (bindings st); heap := heap st |}.

(** [st.session_state[key]]. *)
Definition getitem (key : string) (st : state) : M loc :=
  match bindings st !! key with
  | Some l => ret l
  | None => raise (KeyError key)
  end.

Definition deref (l : loc) (st : state) : M pyobj :=
  match heap st !! l with
  | Some o => ret o
  | None => raise (KeyError "dangling reference")
  end.

(** [d[key]] for a dict object. *)
Fixpoint dict_get (key : string) (d : list (string * loc)) : M loc :=
  match d with
  | [] => raise (KeyError key)
  | (k, l) :: d' => if String.eqb k key then ret l else dict_get key d'
  end.

(** The script stores a dictionary under ['reset'], pairs of numbers
    under the three slider keys and a list of strings under ['regions'].
    An entry of another shape makes the statement that uses it raise. *)
Definition as_dict (o : pyobj) : M (list (string * loc)) :=
  match o with
  | ODict d => ret d
  | _ => raise (TypeError "not a dict")
  end.

(** [st.session_state.reset]. *)
Definition reset_dict (st : state) : M (list (string * loc)) :=
  l <- getitem "reset" st ;; o <- deref l st ;; as_dict o.

(** [st.session_state.reset[key]], as an address. *)
Definition reset_item (key : string) (st : state) : M loc :=
  d <- reset_dict st ;; dict_get key d.

(** [st.session_state.get(key, default)], as an address. *)
Definition get (key : string) (default : loc) (st : state) : loc :=
  match bindings st !! key with
  | Some l => l
  | None => default
  end.

(** The object a key of the live state is bound to. *)
Definition live_value (key : string) (st : state) : M pyobj :=
  l <- getitem key st ;; deref l st.

(** The object the baseline holds for a key. *)
Definition baseline_value (key : string) (st : state) : M pyobj :=
  l <- reset_item key st ;; deref l st.

(** The four keyed widgets of the sidebar. *)
Inductive widget : Type := year_range | regions | revenue_range | margin_range.

Definition key_of (w : widget) : string :=
  match w with
  | year_range => "year_range"
  | regions => "regions"
  | revenue_range => "revenue_range"
  | margin_range => "margin_range"
  end.

(** A user moves a widget: Streamlit binds the widget's key to the new
    value, a new object, before it runs the script again. *)
Definition user_sets (w : widget) (v : pyobj) (st : state) : state :=
  let (l, st') := alloc v st in setitem (key_of w) l st'.

Definition user_updates (us : list (widget * pyobj)) (st : state) : state :=
  fold_left (fun s u => user_sets (fst u) (snd u) s) us st.

(** [st.session_state[key].append(x)]: a mutation in place of the list
    object the key is bound to.  The script itself never does it. *)
Definition list_append (key : string) (x : string) (st : state) : state :=
  match bindings st !! key with
  | Some l =>
      match heap st !! l with
      | Some (OList xs) =>
          {| bindings := bindings st; heap := <[l := OList (xs ++ [x])]> (heap st) |}
      | _ => st
      end
  | None => st
  end.

End Session.

Import Session (state, pyobj, OTuple, OList, ODict).

(** [df['Regiao'].unique()]: the distinct values in order of first
    appearance. *)
Fixpoint unique_go (seen : list string) (l : list string) : list string :=
  match l with
  | [] => []
  | x :: l' =>
      if bool_decide (x ∈ seen) then unique_go seen l'
      else x :: unique_go (x :: seen) l'
  end.

Definition unique (l : list string) : list string := unique_go [] l.

(** A stable sort by insertion.  The element inserted comes from before
    the elements already sorted; it goes in front of the first of them
    that it may precede, hence in front of its equals. *)
Fixpoint insert_by {A : Type} (le : A -> A -> bool) (x : A) (l : list A) : list A :=
  match l with
  | [] => [x]
  | y :: l' => if le x y then x :: y :: l' else y :: insert_by le x l'
  end.

Fixpoint sort_by {A : Type} (le : A -> A -> bool) (l : list A) : list A :=
  match l with
  | [] => []
  | x :: l' => insert_by le x (sort_by le l')
  end.

(** [sorted(l)] on strings. *)
Definition sorted (l : list string) : list string := sort_by String.leb l.

(** Lines 47-53: the baseline is stored once per session. *)
Definition init_reset (df : frame row) (st : state) : M state :=
  if Session.contains "reset" st then ret st
  else
    ano <- col "Ano" (fun r => Num.of_Z (Ano r)) df ;;
    regiao <- col "Regiao" Regiao df ;;
    receita <- col "Receita" Receita df ;;
    margem <- col "MargemLucro" MargemLucro df ;;
    let (l1, st1) := Session.alloc (OTuple (Num.min ano) (Num.max ano)) st in
    let (l2, st2) := Session.alloc (OList (sorted (unique regiao))) st1 in
    let (l3, st3) := Session.alloc (OTuple (Num.min receita) (Num.max receita)) st2 in
    let (l4, st4) := Session.alloc (OTuple (Num.min margem) (Num.max margem)) st3 in
    let (ld, st5) :=
      Session.alloc (ODict [("year_range", l1); ("regions", l2);
                            ("revenue_range", l3); ("margin_range", l4)]) st4 in
    ret (Session.setitem "reset" ld st5).

(** Lines 62-63: [for key in reset: st.session_state[key] = reset[key]]. *)
Definition reset_button (st : state) : M state :=
  d <- Session.reset_dict st ;;
  ret (fold_left (fun s kl => Session.setitem (fst kl) (snd kl) s) d st).

(** The value of a keyed widget: the session entry under its key, the
    baseline's entry when the key is not bound.  The checks of the
    widget on its bounds, options and stored value are left out. *)
Definition widget_value (w : Session.widget) (st : state) : M pyobj :=
  default <- Session.reset_item (Session.key_of w) st ;;
  Session.deref (Session.get (Session.key_of w) default st) st.

(* ===================================================================== *)
(** ** The filter (lines 104-119)                                        *)
(* ===================================================================== *)

(** The four values the sidebar widgets return. *)
Record filters : Type := {
  f_year_range : num * num;
  f_regions : list string;
  f_revenue_range : num * num;
  f_margin_range : num * num
}.

(** [a & b] on two boolean Series of one index. *)
Definition series_and (a b : list bool) : list bool := zip_with andb a b.

Infix "&." := series_and (at level 40, left associativity).

(** [df[mask]]: the rows whose mask entry is [True], in index order. *)
Fixpoint select {R : Type} (rs : list R) (mask : list bool) : list R :=
  match rs, mask with
  | r :: rs', b :: mask' => if b then r :: select rs' mask' else select rs' mask'
  | _, _ => []
  end.

(** The boolean Series between the brackets of line 105. *)
Definition mask (rs : list row) (f : filters) : list bool :=
  let ano := map (fun r => Num.of_Z (Ano r)) rs in
  let regiao := map Regiao rs in
  let receita := map Receita rs in
  let margem := map MargemLucro rs in
  map (fun x => Num.geb x (fst (f_year_range f))) ano
  &. map (fun x => Num.leb x (snd (f_year_range f))) ano
  &. map (fun x => bool_decide (x ∈ f_regions f)) regiao
  &. map (fun x => Num.geb x (fst (f_revenue_range f))) receita
  &. map (fun x => Num.leb x (snd (f_revenue_range f))) receita
  &. map (fun x => Num.geb x (fst (f_margin_range f))) margem
  &. map (fun x => Num.leb x (snd (f_margin_range f))) margem.

(** Line 116: the quotient of two columns, row by row. *)
Definition add_intensity (rs : list row) : list vrow :=
  zip_with (fun r q => {| base_row := r; Emissao_por_Receita := q |})
    rs
    (zip_with Num.div (map Emissao_Carbono rs) (map Receita rs)).

(** The rows of [df_filtered]. *)
Definition df_filtered (rs : list row) (f : filters) : list vrow :=
  add_intensity (select rs (mask rs f)).

(** [year_range[0]], [year_range[1]] and the like on the value of a
    slider, and the value of the multiselect as the argument of [isin]. *)
Definition as_range (o : pyobj) : M (num * num) :=
  match o with
  | OTuple a b => ret (a, b)
  | _ => raise (TypeError "not a pair of numbers")
  end.

Definition as_regions (o : pyobj) : M (list string) :=
  match o with
  | OList l => ret l
  | _ => raise (TypeError "not a list of regions")
  end.

Definition with_column (name : string) (cols : list string) : list string :=
  if bool_decide (name ∈ cols) then cols else cols ++ [name].

(** Lines 104-119 on frames: a missing column or a widget value of the
    wrong shape raises inside the [try]; the handler reports it and
    continues with [pd.DataFrame()]. *)
Definition apply_filters (df : frame row) (yr rg rr mr : pyobj) : M (frame vrow) :=
  try_except
    (_ <- col "Ano" Ano df ;;
     y <- as_range yr ;;
     _ <- col "Regiao" Regiao df ;;
     g <- as_regions rg ;;
     _ <- col "Receita" Receita df ;;
     r <- as_range rr ;;
     _ <- col "MargemLucro" MargemLucro df ;;
     m <- as_range mr ;;
     _ <- col "Emissao_Carbono" Emissao_Carbono df ;;
     ret {| columns := with_column "Emissao_por_Receita" (columns df);
            rows := df_filtered (rows df)
                      {| f_year_range := y; f_regions := g;
                         f_revenue_range := r; f_margin_range := m |} |})
    (fun e =>
       emit (Error ("Erro ao filtrar dados: " +:+ exn_str e)) ;;;
       ret empty_frame).

(* ===================================================================== *)
(** ** The KPI cards (lines 130-164)                                     *)
(* ===================================================================== *)

(** The text of a delta, [f(delta) if delta else None]: [None] and a
    falsy number both give no delta. *)
Definition delta_text {A : Type} (truthy : A -> bool) (fmt : A -> string)
  (delta : option A) : option string :=
  match delta with
  | Some d => if truthy d then Some (fmt d) else None
  | None => None
  end.

Definition int_truthy (z : Z) : bool := negb (z =? 0).

(** Line 132. *)
Definition delta (df : list row) (v : list vrow) : option Z :=
  if negb (Nat.eqb (length v) (length df))
  then Some (Z.of_nat (length v) - Z.of_nat (length df))
  else None.

Definition metric_count (df : list row) (v : list vrow) : element :=
  Metric "📈 Empresas Analisadas"
    (Fmt.fmt_int true (Z.of_nat (length v)))
    (delta_text int_truthy (Fmt.fmt_int true) (delta df v)).

(** [x if not df_filtered.empty else None], for a view that has its
    columns. *)
Definition unless_empty {A : Type} (v : list vrow) (x : A) : option A :=
  match v with
  | [] => None
  | _ :: _ => Some x
  end.

(** Lines 140-141. *)
Definition avg_esg (v : list vrow) : num :=
  Num.mean (map (fun r => ESG_Geral (base_row r)) v).

Definition delta_esg (df : list row) (v : list vrow) : option num :=
  unless_empty v (Num.sub (avg_esg v) (Num.mean (map ESG_Geral df))).

Definition metric_esg (df : list row) (v : list vrow) : element :=
  Metric "🌱 Média ESG Geral"
    (Fmt.fmt_float false 1 (avg_esg v))
    (delta_text Num.truthy (Fmt.fmt_float false 1) (delta_esg df v)).

(** Lines 149-150. *)
Definition avg_revenue (v : list vrow) : num :=
  Num.mean (map (fun r => Receita (base_row r)) v).

Definition delta_revenue (df : list row) (v : list vrow) : option num :=
  unless_empty v (Num.sub (avg_revenue v) (Num.mean (map Receita df))).

Definition fmt_revenue (x : num) : string :=
  "$" +:+ Fmt.fmt_float true 2 x +:+ "M".

Definition metric_revenue (df : list row) (v : list vrow) : element :=
  Metric "💸 Receita Média"
    (fmt_revenue (avg_revenue v))
    (delta_text Num.truthy fmt_revenue (delta_revenue df v)).

(** Lines 158-159. *)
Definition total_emissions (v : list vrow) : num :=
  Num.sum (map (fun r => Emissao_Carbono (base_row r)) v).

Definition delta_emissions (df : list row) (v : list vrow) : option num :=
  unless_empty v (Num.sub (total_emissions v) (Num.sum (map Emissao_Carbono df))).

Definition fmt_emissions (x : num) : string :=
  Fmt.fmt_float true 0 x +:+ " tCO2".

Definition metric_emissions (df : list row) (v : list vrow) : element :=
  Metric "🏭 Emissões Totais"
    (fmt_emissions (total_emissions v))
    (delta_text Num.truthy fmt_emissions (delta_emissions df v)).

(** The delta a card shows. *)
Definition shown_delta (e : element) : option string :=
  match e with
  | Metric _ _ d => d
  | _ => None
  end.

(** The value a card shows. *)
Definition shown_value (e : element) : option string :=
  match e with
  | Metric _ v _ => Some v
  | _ => None
  end.

(** Lines 130-164 on frames. *)
Definition kpis (df : frame row) (v : frame vrow) : M unit :=
  emit (metric_count (rows df) (rows v)) ;;;
  _ <- col "ESG_Geral" (fun r => ESG_Geral (base_row r)) v ;;
  _ <- (if empty v then ret [] else col "ESG_Geral" ESG_Geral df) ;;
  emit (metric_esg (rows df) (rows v)) ;;;
  _ <- col "Receita" (fun r => Receita (base_row r)) v ;;
  _ <- (if empty v then ret [] else col "Receita" Receita df) ;;
  emit (metric_revenue (rows df) (rows v)) ;;;
  _ <- col "Emissao_Carbono" (fun r => Emissao_Carbono (base_row r)) v ;;
  _ <- (if empty v then ret [] else col "Emissao_Carbono" Emissao_Carbono df) ;;
  emit (metric_emissions (rows df) (rows v)).

(* ===================================================================== *)
(** ** Ranking (lines 167-212)                                           *)
(* ===================================================================== *)

(** [x] goes before [y] in a descending order of the metric. *)
Definition desc (metric : vrow -> num) (x y : vrow) : bool :=
  Num.leb (metric y) (metric x).

(** The rows whose metric is a number, and those where it is missing. *)
Definition present (metric : vrow -> num) (v : list vrow) : list vrow :=
  List.filter (fun r => negb (Num.is_nan (metric r))) v.

Definition missing (metric : vrow -> num) (v : list vrow) : list vrow :=
  List.filter (fun r => Num.is_nan (metric r)) v.

(** [DataFrame.nlargest(n, column)] with the default [keep='first'], by
    its documented contract: the rows in descending order of the column,
    the first occurrence first among equal values, rows with a missing
    value last, cut to the first [n]. *)
Definition nlargest (n : nat) (metric : vrow -> num) (v : list vrow) : list vrow :=
  take n (sort_by (desc metric) (present metric v) ++ missing metric v).

Definition m_ESG_Geral (r : vrow) : num := ESG_Geral (base_row r).
Definition m_Emissao_Carbono (r : vrow) : num := Emissao_Carbono (base_row r).
Definition m_Receita (r : vrow) : num := Receita (base_row r).

Definition top_esg (v : list vrow) : list vrow := nlargest 5 m_ESG_Geral v.
Definition top_emitters (v : list vrow) : list vrow := nlargest 5 m_Emissao_Carbono v.
Definition top_revenue (v : list vrow) : list vrow := nlargest 5 m_Receita v.

Definition plot_top_companies (v : frame vrow) : M unit :=
  _ <- col "ESG_Geral" m_ESG_Geral v ;;
  emit (Bar "Empresas com Melhor ESG" (top_esg (rows v))) ;;;
  _ <- col "Emissao_Carbono" m_Emissao_Carbono v ;;
  emit (Bar "Empresas com Maiores Emissões" (top_emitters (rows v))) ;;;
  _ <- col "Receita" m_Receita v ;;
  emit (Bar "Empresas com Maiores Receitas" (top_revenue (rows v))).

(* ===================================================================== *)
(** ** Trend (lines 214-250)                                             *)
(* ===================================================================== *)

Definition group_key : Type := (Z * string)%type.

Definition key_of_row (r : vrow) : group_key :=
  (Ano (base_row r), Regiao (base_row r)).

Definition key_eqb (k1 k2 : group_key) : bool :=
  (fst k1 =? fst k2) && String.eqb (snd k1) (snd k2).

(** The order of the group labels: the year first, then the region name,
    compared as Python compares [str]. *)
Definition key_leb (k1 k2 : group_key) : bool :=
  (fst k1 <? fst k2) || ((fst k1 =? fst k2) && String.leb (snd k1) (snd k2)).

Fixpoint distinct (seen : list group_key) (ks : list group_key) : list group_key :=
  match ks with
  | [] => []
  | k :: ks' =>
      if existsb (key_eqb k) seen then distinct seen ks'
      else k :: distinct (k :: seen) ks'
  end.

(** The labels of the groups of [groupby(['Ano', 'Regiao'])] with the
    default [sort=True]: the distinct pairs that occur, in ascending
    order. *)
Definition group_keys (v : list vrow) : list group_key :=
  sort_by key_leb (distinct [] (map key_of_row v)).

(** The rows of one group, in index order. *)
Definition group (k : group_key) (v : list vrow) : list vrow :=
  List.filter (fun r => key_eqb (key_of_row r) k) v.

(** [.agg({...})] on one group. *)
Definition aggregate (k : group_key) (g : list vrow) : trow :=
  {| t_Ano := fst k;
     t_Regiao := snd k;
     t_ESG_Geral := Num.mean (map m_ESG_Geral g);
     t_Receita := Num.mean (map m_Receita g);
     t_Emissao_Carbono := Num.sum (map m_Emissao_Carbono g);
     t_Emissao_por_Receita := Num.mean (map Emissao_por_Receita g) |}.

(** Lines 218-223. *)
Definition df_trend (v : list vrow) : list trow :=
  map (fun k => aggregate k (group k v)) (group_keys v).

Definition t_key (t : trow) : group_key := (t_Ano t, t_Regiao t).

Definition plot_trend_analysis (v : frame vrow) : M unit :=
  _ <- col "Ano" key_of_row v ;;
  _ <- col "Regiao" key_of_row v ;;
  _ <- col "ESG_Geral" m_ESG_Geral v ;;
  _ <- col "Receita" m_Receita v ;;
  _ <- col "Emissao_Carbono" m_Emissao_Carbono v ;;
  _ <- col "Emissao_por_Receita" Emissao_por_Receita v ;;
  emit (Line "Evolução do ESG e Receita por Região" (df_trend (rows v))) ;;;
  emit (Area "Emissões de Carbono ao Longo do Tempo" (df_trend (rows v))).

(* ===================================================================== *)
(** ** The two tabs (lines 256-289)                                      *)
(* ===================================================================== *)

Definition no_data : element :=
  Warning "Nenhum dado encontrado com os filtros atuais.".

Definition tab1 (v : frame vrow) : M unit :=
  if negb (empty v) then plot_top_companies v ;;; plot_trend_analysis v
  else emit no_data.

(** Lines 273-287 for one region. *)
Definition radar (v : list vrow) (region : string) : element :=
  let rs := List.filter (fun r => String.eqb (Regiao (base_row r)) region) v in
  let region_data :=
    [ Num.mean (map (fun r => ESG_Ambiental (base_row r)) rs);
      Num.mean (map (fun r => ESG_Social (base_row r)) rs);
      Num.mean (map (fun r => ESG_Governanca (base_row r)) rs) ] in
  Radar ("Desempenho ESG - " +:+ region)
    (region_data ++ [Num.mean (map (fun r => ESG_Ambiental (base_row r)) rs)]).

Definition tab2 (v : frame vrow) : M unit :=
  if negb (empty v) then
    regiao <- col "Regiao" (fun r => Regiao (base_row r)) v ;;
    _ <- col "ESG_Ambiental" (fun r => ESG_Ambiental (base_row r)) v ;;
    _ <- col "ESG_Social" (fun r => ESG_Social (base_row r)) v ;;
    _ <- col "ESG_Governanca" (fun r => ESG_Governanca (base_row r)) v ;;
    _ <- mapM (fun region => emit (radar (rows v) region)) (unique regiao) ;;
    ret tt
  else emit no_data.

(** Everything below the filter: the cards and the two tabs. *)
Definition render (df : frame row) (v : frame vrow) : M unit :=
  kpis df v ;;; tab1 v ;;; tab2 v.

(* ===================================================================== *)
(** ** The script                                                         *)
(* ===================================================================== *)

Section Script.

Variable int_of_text : string -> option Z.
Variable float_of_text : string -> option num.

(** Lines 67-119 and below: the widgets read their values, the filter is
    applied, the page is rendered. *)
Definition body (df : frame row) (st : state) : M unit :=
  _ <- col "Ano" Ano df ;;
  yr <- widget_value Session.year_range st ;;
  _ <- col "Regiao" Regiao df ;;
  rg <- widget_value Session.regions st ;;
  _ <- col "Receita" Receita df ;;
  rr <- widget_value Session.revenue_range st ;;
  _ <- col "MargemLucro" MargemLucro df ;;
  mr <- widget_value Session.margin_range st ;;
  v <- apply_filters df yr rg rr mr ;;
  render df v.

(** Lines 44-53: the table and the baseline. *)
Definition prelude (src : source) (st : state) : M (frame row * state) :=
  df <- load_data int_of_text float_of_text src ;;
  st' <- init_reset df st ;;
  ret (df, st').

(** One run of the script with the reset button not pressed. *)
Definition run_once (src : source) (st : state) : M state :=
  p <- prelude src st ;;
  body (fst p) (snd p) ;;;
  ret (snd p).

(** One user event: [clicked] tells whether it was the reset button.
    After the reset loop [st.rerun()] stops the run, drops what it
    rendered and runs the script again. *)
Definition script (src : source) (clicked : bool) (st : state) : M state :=
  if clicked then
    match (p <- prelude src st ;; reset_button (snd p)) with
    | (_, inr st') => run_once src st'
    | (out, inl e) => (out, inl e)
    end
  else run_once src st.

(** What a run rendered and the exception that ended it, if any. *)
Definition rendered {A : Type} (m : M A) : list element := fst m.

Definition crashed {A : Type} (m : M A) : option exn :=
  match snd m with
  | inl e => Some e
  | inr _ => None
  end.

End Script.

(* ===================================================================== *)
(** ** Vocabulary of the properties                                      *)
(* ===================================================================== *)

(** The entry of the mask of line 105 for one row. *)
Definition passes (f : filters) (r : row) : bool :=
  Num.geb (Num.of_Z (Ano r)) (fst (f_year_range f))
  && Num.leb (Num.of_Z (Ano r)) (snd (f_year_range f))
  && bool_decide (Regiao r ∈ f_regions f)
  && Num.geb (Receita r) (fst (f_revenue_range f))
  && Num.leb (Receita r) (snd (f_revenue_range f))
  && Num.geb (MargemLucro r) (fst (f_margin_range f))
  && Num.leb (MargemLucro r) (snd (f_margin_range f)).

(** The predicate of the specification, in its words: a closed range on
    the year, membership of the region, closed ranges on revenue and
    margin, all four joined by a conjunction. *)
Definition in_range (x : num) (bounds : num * num) : Prop :=
  Num.leb (fst bounds) x = true /\ Num.leb x (snd bounds) = true.

Definition satisfies (f : filters) (r : row) : Prop :=
  in_range (Num.of_Z (Ano r)) (f_year_range f)
  /\ Regiao r ∈ f_regions f
  /\ in_range (Receita r) (f_revenue_range f)
  /\ in_range (MargemLucro r) (f_margin_range f).

#[local] Instance in_range_dec x bounds : Decision (in_range x bounds).
Proof. unfold in_range. apply _. Defined.

#[local] Instance satisfies_dec f r : Decision (satisfies f r).
Proof. unfold satisfies. apply _. Defined.


(** The attributes that the example of the specification leaves open. *)
Record rest : Type := {
  margin : Q;
  emissao : num;
  ambiental : num;
  social : num;
  governanca : num
}.

Definition observation (name region : string) (year : Z) (rev esg : Q) (u : rest)
  : row :=
  {| Nome_Compania := name; Regiao := region; Ano := year;
     Receita := Fin rev; MargemLucro := Fin (margin u);
     Emissao_Carbono := emissao u; ESG_Geral := Fin esg;
     ESG_Ambiental := ambiental u; ESG_Social := social u;
     ESG_Governanca := governanca u |}.

(** The three-record table of the specification's example. *)
Definition example_base (u1 u2 u3 : rest) : list row :=
  [ observation "Acme" "NA" 2020 100 50 u1;
    observation "Beta" "EU" 2020 200 80 u2;
    observation "Acme" "NA" 2021 150 60 u3 ].

Definition example_filter : filters :=
  {| f_year_range := (Num.of_Z 2020, Num.of_Z 2021);
     f_regions := ["NA"; "EU"];
     f_revenue_range := (Fin 0, Fin 1000);
     f_margin_range := (Fin (-100), Fin 100) |}.

Definition plain : rest :=
  {| margin := 10; emissao := Fin 5;
     ambiental := Fin 40; social := Fin 50; governanca := Fin 60 |}.

Definition sample_base : list row := example_base plain plain plain.

Definition all_columns : list string :=
  ["Nome_Compania"; "Regiao"; "Ano"; "Receita"; "MargemLucro";
   "Emissao_Carbono"; "ESG_Geral"; "ESG_Ambiental"; "ESG_Social";
   "ESG_Governanca"].

Definition sample_df : frame row :=
  {| columns := all_columns; rows := sample_base |}.

Definition names (v : list vrow) : list string :=
  map (fun r => Nome_Compania (base_row r)) v.

(** A run that renders nothing. *)
Definition silent {A : Type} (m : M A) : Prop := fst m = [].

(** [x] may stand before [y] in a descending order of the metric with the
    missing values last. *)
Definition descending (metric : vrow -> num) (x y : vrow) : Prop :=
  Num.leb (metric y) (metric x) = true \/ Num.is_nan (metric y) = true.

(** The strict order of the group labels: the year ascending, then the
    region name ascending. *)
Definition key_lt (k1 k2 : group_key) : Prop :=
  fst k1 < fst k2 \/ (fst k1 = fst k2 /\ String.ltb (snd k1) (snd k2) = true).

(** An infinite float, of either sign. *)
Definition is_inf (x : num) : bool :=
  match x with
  | PInf | NInf => true
  | _ => false
  end.

(** The emissions of a record are 0 or missing. *)
Definition no_emissions (e : num) : Prop :=
  e = NaN \/ exists q, e = Fin q /\ (q == 0)%Q.

Definition zero_revenue (r : row) : Prop :=
  exists q, Receita r = Fin q /\ (q == 0)%Q.

Definition not_missing (x : num) : bool := negb (Num.is_nan x).

(** The intensities of the group a trend row stands for. *)
Definition intensities (t : trow) (v : list vrow) : list num :=
  map Emissao_por_Receita (group (t_key t) v).

(** Two records of one group, the first with no revenue. *)
Definition zero_revenue_base : list row :=
  [ observation "Acme" "NA" 2020 0 50 plain;
    observation "Beta" "NA" 2020 100 80 plain ].

(** Two records that differ in the year only. *)
Definition twin_base : list row :=
  [ observation "Acme" "NA" 2020 100 50 plain;
    observation "Acme" "NA" 2021 100 50
      {| margin := 10; emissao := Fin 0;
         ambiental := Fin 40; social := Fin 50; governanca := Fin 60 |} ].

(** One record whose emission cell reads as infinite. *)
Definition unbounded_base : list row :=
  [ observation "Acme" "NA" 2020 100 50
      {| margin := 10; emissao := PInf;
         ambiental := Fin 40; social := Fin 50; governanca := Fin 60 |} ].

Definition only_2020 : filters :=
  {| f_year_range := (Num.of_Z 2020, Num.of_Z 2020);
     f_regions := ["NA"; "EU"];
     f_revenue_range := (Fin 0, Fin 1000);
     f_margin_range := (Fin (-100), Fin 100) |}.

(** The object that the baseline stores for a widget, from the rows of
    the table (lines 49-52). *)
Definition baseline_of (df : list row) (w : Session.widget) : pyobj :=
  match w with
  | Session.year_range =>
      OTuple (Num.min (map (fun r => Num.of_Z (Ano r)) df))
             (Num.max (map (fun r => Num.of_Z (Ano r)) df))
  | Session.regions => OList (sorted (unique (map Regiao df)))
  | Session.revenue_range =>
      OTuple (Num.min (map Receita df)) (Num.max (map Receita df))
  | Session.margin_range =>
      OTuple (Num.min (map MargemLucro df)) (Num.max (map MargemLucro df))
  end.

(** The baseline dictionary when its four objects sit at [n], [n+1],
    [n+2] and [n+3]. *)
Definition baseline_dict (n : nat) : list (string * Session.loc) :=
  [("year_range", n); ("regions", S n);
   ("revenue_range", S (S n)); ("margin_range", S (S (S n)))].

Definition baseline_heap (df : list row) (n : nat) : list pyobj :=
  [baseline_of df Session.year_range; baseline_of df Session.regions;
   baseline_of df Session.revenue_range; baseline_of df Session.margin_range;
   ODict (baseline_dict n)].

(** The address of a widget's baseline object. *)
Definition baseline_loc (n : nat) (w : Session.widget) : Session.loc :=
  match w with
  | Session.year_range => n
  | Session.regions => S n
  | Session.revenue_range => S (S n)
  | Session.margin_range => S (S (S n))
  end.

(** A session in which the baseline made from [df] sits at address [n]
    and above, untouched. *)
Definition holds_baseline (df : list row) (n : nat) (st : state) : Prop :=
  Session.bindings st !! "reset" = Some (n + 4)%nat
  /\ exists older newer,
       length older = n
       /\ Session.heap st = older ++ baseline_heap df n ++ newer.

(** The session right after lines 47-53 have run on the sample table in
    a new session. *)
Definition sample_session : state :=
  {| Session.bindings := <["reset" := 4%nat]> ∅;
     Session.heap := baseline_heap sample_base 0 |}.

(** The margin of a record of the example lies in the filter's range. *)
Definition within_margin (u : rest) : Prop :=
  Qle_bool (-100) (margin u) = true /\ Qle_bool (margin u) 100 = true.

(** The sheet behind the sample table: years and revenues as the reader
    delivers them, one margin typed as text. *)
Definition raw_observation (name region : string) (year : Z) (rev esg : Q)
  (margem : Raw.cell) : Raw.row :=
  {| Raw.Nome_Compania := name; Raw.Regiao := region;
     Raw.Ano := Raw.CInt year; Raw.Receita := Raw.CFloat (Fin rev);
     Raw.MargemLucro := margem;
     Raw.Emissao_Carbono := Raw.CInt 5; Raw.ESG_Geral := Fin esg;
     Raw.ESG_Ambiental := Fin 40; Raw.ESG_Social := Fin 50;
     Raw.ESG_Governanca := Fin 60 |}.

Definition sample_sheet : frame Raw.row :=
  {| columns := all_columns;
     rows := [ raw_observation "Acme" "NA" 2020 100 50 (Raw.CInt 10);
               raw_observation "Beta" "EU" 2020 200 80 (Raw.CText "10");
               raw_observation "Acme" "NA" 2021 150 60 (Raw.CFloat (Fin 10)) ] |}.

(** A reader of text cells that knows the text "10". *)
Definition reads_ten (s : string) : option num :=
  if String.eqb s "10" then Some (Fin 10) else None.

(* ===================================================================== *)
(** ** Vocabulary of the further properties                              *)
(* ===================================================================== *)

(** The filter state of a session in which no widget was moved: the four
    values of the baseline (lines 49-52). *)
Definition baseline_filters (rs : list row) : filters :=
  {| f_year_range := (Num.min (map (fun r => Num.of_Z (Ano r)) rs),
                      Num.max (map (fun r => Num.of_Z (Ano r)) rs));
     f_regions := sorted (unique (map Regiao rs));
     f_revenue_range := (Num.min (map Receita rs), Num.max (map Receita rs));
     f_margin_range := (Num.min (map MargemLucro rs), Num.max (map MargemLucro rs)) |}.

(** The row has a revenue and a margin. *)
Definition has_revenue_and_margin (r : row) : bool :=
  not_missing (Receita r) && not_missing (MargemLucro r).




(** [f'] selects within [f]: each of its three ranges lies inside the
    range of [f] and its regions are regions of [f]. *)
Definition range_within (inner outer : num * num) : Prop :=
  Num.leb (fst outer) (fst inner) = true /\ Num.leb (snd inner) (snd outer) = true.

Definition narrower (f' f : filters) : Prop :=
  range_within (f_year_range f') (f_year_range f)
  /\ f_regions f' ⊆ f_regions f
  /\ range_within (f_revenue_range f') (f_revenue_range f)
  /\ range_within (f_margin_range f') (f_margin_range f).

(** The number of records that each row of the trend table aggregates. *)
Definition group_sizes (v : list vrow) : list nat :=
  map (fun t => length (group (t_key t) v)) (df_trend v).





(** Three records of the example's shape, the second without an
    emission figure. *)
Definition gappy_base : list row :=
  [ observation "Acme" "NA" 2020 100 50 plain;
    observation "Beta" "EU" 2020 200 80
      {| margin := 10; emissao := NaN;
         ambiental := Fin 40; social := Fin 50; governanca := Fin 60 |};
    observation "Acme" "NA" 2021 150 60 plain ].

(** A sheet of two rows, the second with a revenue cell that is not a
    number. *)
Definition partial_sheet : frame Raw.row :=
  {| columns := all_columns;
     rows := [ raw_observation "Acme" "Europa" 2020 100 50 (Raw.CInt 10);
               {| Raw.Nome_Compania := "Beta"; Raw.Regiao := "Asia";
                  Raw.Ano := Raw.CInt 2020;
                  Raw.Receita := Raw.CText "n/d";
                  Raw.MargemLucro := Raw.CInt 10;
                  Raw.Emissao_Carbono := Raw.CInt 5;
                  Raw.ESG_Geral := Fin 80; Raw.ESG_Ambiental := Fin 40;
                  Raw.ESG_Social := Fin 50;
                  Raw.ESG_Governanca := Fin 60 |} ] |}.

(* ===================================================================== *)
(** * Properties                                                          *)
(* ===================================================================== *)

(** ** Number formats *)

Example fmt_one_decimal : Fmt.fmt_float false 1 (Fin (190 # 3)) = "63.3".
Proof. reflexivity. Qed.
Example fmt_grouped_two_decimals : Fmt.fmt_float true 2 (Fin (1234567 # 8)) = "154,320.88".
Proof. reflexivity. Qed.
Example fmt_grouped_negative : Fmt.fmt_float true 0 (Fin (-(2500 # 1))) = "-2,500".
Proof. reflexivity. Qed.
Example fmt_int_grouped : Fmt.fmt_int true (-1234567) = "-1,234,567".
Proof. reflexivity. Qed.
Example fmt_half_to_even_down : Fmt.fmt_float false 1 (Fin (1 # 20)) = "0.0".
Proof. reflexivity. Qed.
Example fmt_half_to_even_up : Fmt.fmt_float false 1 (Fin (3 # 20)) = "0.2".
Proof. reflexivity. Qed.
Example fmt_nan : Fmt.fmt_float true 2 (Num.mean []) = "nan".
Proof. reflexivity. Qed.

(** ** The filter engine *)

Section FilterFacts.

Lemma series_and_map {A : Type} (p q : A -> bool) (l : list A) :
  map p l &. map q l = map (fun x => p x && q x) l.
Proof.
  unfold series_and. induction l as [|x l IH]; simpl; [reflexivity|].
  now rewrite IH.
Qed.

Lemma mask_rowwise (rs : list row) (f : filters) :
  mask rs f = map (passes f) rs.
Proof.
  unfold mask. rewrite !map_map, !series_and_map. reflexivity.
Qed.

Lemma select_map_filter {R : Type} (p : R -> bool) (rs : list R) :
  select rs (map p rs) = List.filter p rs.
Proof.
  induction rs as [|r rs IH]; simpl; [reflexivity|].
  rewrite IH. reflexivity.
Qed.

Lemma base_row_add_intensity (rs : list row) :
  map base_row (add_intensity rs) = rs.
Proof.
  unfold add_intensity. induction rs as [|r rs IH]; simpl; [reflexivity|].
  now rewrite IH.
Qed.

Lemma add_intensity_rowwise (rs : list row) :
  add_intensity rs =
  map (fun r => {| base_row := r;
                   Emissao_por_Receita := Num.div (Emissao_Carbono r) (Receita r) |}) rs.
Proof.
  unfold add_intensity. induction rs as [|r rs IH]; simpl; [reflexivity|].
  now rewrite IH.
Qed.

Lemma df_filtered_rowwise (rs : list row) (f : filters) :
  map base_row (df_filtered rs f) = List.filter (passes f) rs.
Proof.
  unfold df_filtered.
  now rewrite base_row_add_intensity, mask_rowwise, select_map_filter.
Qed.

Lemma length_df_filtered (rs : list row) (f : filters) :
  length (df_filtered rs f) = length (List.filter (passes f) rs).
Proof. now rewrite <- df_filtered_rowwise, length_map. Qed.

End FilterFacts.

Lemma passes_satisfies (f : filters) (r : row) :
  passes f r = true <-> satisfies f r.
Proof.
  unfold passes, satisfies, in_range, Num.geb.
  rewrite !andb_true_iff, bool_decide_eq_true. tauto.
Qed.

Lemma filter_passes_satisfies (f : filters) (rs : list row) :
  List.filter (passes f) rs = filter (satisfies f) rs.
Proof.
  induction rs as [|r rs IH]; [reflexivity|].
  simpl. rewrite filter_cons, IH.
  destruct (passes f r) eqn:E; destruct (decide (satisfies f r)) as [H|H];
    try reflexivity.
  - exfalso. apply H. now apply passes_satisfies.
  - apply passes_satisfies in H. congruence.
Qed.

(** C4.  For every base table and every filter state, the rows of the
    filtered view, without the added column, are exactly the subsequence
    of the base rows that satisfy the four conditions joined by "and":
    year in its closed range, region in the region set, revenue in its
    closed range, margin in its closed range.  The order of the base
    table is kept: the view is a sublist of it, and a base row is in the
    view exactly when it satisfies the conjunction. *)
Theorem filtered_view_is_the_satisfying_subsequence (rs : list row) (f : filters) :
  map base_row (df_filtered rs f) = filter (satisfies f) rs
  /\ sublist (map base_row (df_filtered rs f)) rs
  /\ (forall r, r ∈ map base_row (df_filtered rs f) <-> r ∈ rs /\ satisfies f r).
Proof.
  assert (E : map base_row (df_filtered rs f) = filter (satisfies f) rs).
  { now rewrite df_filtered_rowwise, filter_passes_satisfies. }
  rewrite E. split; [reflexivity|]. split.
  - apply sublist_filter.
  - intros r. rewrite list_elem_of_filter. tauto.
Qed.

(** ** The script monad *)

Lemma bind_ret {A B : Type} (a : A) (k : A -> M B) : bind (ret a) k = k a.
Proof. unfold bind, ret. now destruct (k a). Qed.

Lemma silent_ret {A : Type} (a : A) : silent (ret a).
Proof. reflexivity. Qed.

Lemma silent_raise {A : Type} (e : exn) : silent (@raise A e).
Proof. reflexivity. Qed.

Lemma silent_bind {A B : Type} (m : M A) (k : A -> M B) :
  silent m -> (forall a, silent (k a)) -> silent (bind m k).
Proof.
  unfold silent, bind. destruct m as [out [e|a]]; simpl; intros -> Hk.
  - reflexivity.
  - specialize (Hk a). destruct (k a) as [out' r]. simpl in *. now subst.
Qed.

Lemma silent_col {R A : Type} (name : string) (field : R -> A) (df : frame R) :
  silent (col name field df).
Proof. unfold col. case_bool_decide; reflexivity. Qed.

Lemma silent_mapM {A B : Type} (f : A -> M B) (l : list A) :
  (forall a, silent (f a)) -> silent (mapM f l).
Proof.
  intros Hf. induction l as [|a l IH]; simpl.
  - reflexivity.
  - apply silent_bind; [apply Hf|]. intros b.
    apply silent_bind; [apply IH|]. intros bs. reflexivity.
Qed.

Lemma col_missing {R A : Type} (name : string) (field : R -> A) :
  col name field (@empty_frame R) = raise (KeyError name).
Proof. reflexivity. Qed.

(** ** Loading *)

Section LoadFacts.

Variable int_of_text : string -> option Z.
Variable float_of_text : string -> option num.

Lemma silent_astype_int (c : Raw.cell) : silent (astype_int int_of_text c).
Proof.
  destruct c as [z|[q| | |]|s]; simpl; try reflexivity.
  destruct (int_of_text s); reflexivity.
Qed.

Lemma silent_load_body (src : source) :
  silent (load_body int_of_text float_of_text src).
Proof.
  unfold load_body.
  apply silent_bind; [destruct src; reflexivity|]. intros df.
  apply silent_bind; [apply silent_col|]. intros c1.
  apply silent_bind; [apply silent_mapM, silent_astype_int|]. intros c2.
  repeat (apply silent_bind; [apply silent_col|]; intros ?).
  reflexivity.
Qed.

Lemma load_data_failure (src : source) (e : exn) :
  snd (load_body int_of_text float_of_text src) = inl e ->
  load_data int_of_text float_of_text src =
  ([Error ("Erro ao carregar dados: " +:+ exn_str e)], inr empty_frame).
Proof.
  intros H. unfold load_data, try_except.
  pose proof (silent_load_body src) as Hs. unfold silent in Hs.
  destruct (load_body int_of_text float_of_text src) as [out r].
  simpl in *. subst. reflexivity.
Qed.

Lemma run_once_without_table (src : source) (e : exn) (st : state) :
  snd (load_body int_of_text float_of_text src) = inl e ->
  run_once int_of_text float_of_text src st =
  ([Error ("Erro ao carregar dados: " +:+ exn_str e)], inl (KeyError "Ano")).
Proof.
  intros H. unfold run_once, prelude.
  rewrite (load_data_failure _ _ H). unfold init_reset.
  destruct (Session.contains "reset" st); reflexivity.
Qed.

(** C2.  When the body of [load_data] raises, whatever the exception,
    [load_data] reports it with [st.error] and returns the empty
    DataFrame; the run of the script that follows does not go on to
    render the dashboard: it ends with an exception that nothing catches,
    the [KeyError] of [df['Ano']] on a frame without columns when the
    reset button was not pressed. *)
Theorem load_failure_ends_the_run_with_an_exception
  (src : source) (e : exn) :
  snd (load_body int_of_text float_of_text src) = inl e ->
  load_data int_of_text float_of_text src =
    ([Error ("Erro ao carregar dados: " +:+ exn_str e)], inr empty_frame)
  /\ (forall st,
        script int_of_text float_of_text src false st =
        ([Error ("Erro ao carregar dados: " +:+ exn_str e)],
         inl (KeyError "Ano")))
  /\ (forall clicked st,
        rendered (script int_of_text float_of_text src clicked st) =
          [Error ("Erro ao carregar dados: " +:+ exn_str e)]
        /\ exists e', crashed (script int_of_text float_of_text src clicked st) = Some e').
Proof.
  intros H. split; [now apply load_data_failure|].
  split; [intros st; now apply run_once_without_table|].
  intros [|] st; unfold script.
  - unfold prelude. rewrite (load_data_failure _ _ H). unfold init_reset.
    destruct (Session.contains "reset" st).
    + simpl. destruct (reset_button st) as [out [e'|st']] eqn:R; simpl.
      * assert (out = []) as ->.
        { revert R. unfold reset_button, Session.reset_dict, Session.getitem,
            Session.deref, Session.as_dict, bind, ret, raise.
          repeat (case_match; simpl); intros; simplify_eq; reflexivity. }
        split; [reflexivity|]. unfold crashed. simpl. eauto.
      * rewrite (run_once_without_table _ _ _ H). unfold crashed. simpl. eauto.
    + simpl. unfold crashed. simpl. eauto.
  - rewrite (run_once_without_table _ _ _ H). unfold crashed. simpl. eauto.
Qed.

End LoadFacts.

(** C2, at a concrete input: the workbook cannot be read in a new
    session. *)
Lemma load_failure_ends_the_run_witness :
  script (fun _ => None) (fun _ => None) (Unreadable "No such file") false Session.fresh
  = ([Error "Erro ao carregar dados: No such file"], inl (KeyError "Ano")).
Proof.
  apply (load_failure_ends_the_run_with_an_exception
           (fun _ => None) (fun _ => None) (Unreadable "No such file")
           (ReadError "No such file")).
  reflexivity.
Defined.

(** ** The empty view *)

Lemma map_eq_nil_inv {A B : Type} (f : A -> B) (l : list A) :
  map f l = [] -> l = [].
Proof. destruct l; [reflexivity|discriminate]. Qed.

Lemma filter_all_false {A : Type} (p : A -> bool) (l : list A) :
  (forall x, p x = false) -> List.filter p l = [].
Proof.
  intros H. induction l as [|x l IH]; simpl; [reflexivity|].
  now rewrite H.
Qed.

Lemma df_filtered_no_region (rs : list row) (y r m : num * num) :
  df_filtered rs {| f_year_range := y; f_regions := [];
                    f_revenue_range := r; f_margin_range := m |} = [].
Proof.
  apply (map_eq_nil_inv base_row). rewrite df_filtered_rowwise.
  apply filter_all_false. intros x.
  match goal with |- ?b = false => destruct b eqn:E end; [|reflexivity].
  apply passes_satisfies in E. destruct E as (_ & E & _).
  simpl in E. now apply elem_of_nil in E.
Qed.

Lemma empty_no_rows {R : Type} (v : frame R) : rows v = [] -> empty v = true.
Proof. unfold empty. intros ->. now destruct (columns v). Qed.

(** C10.  With an empty region set the filtered view has no row,
    whatever the base table and the three ranges.  On frames, the filter
    step then always hands on a frame with no row, and such a frame gets
    what every empty view gets: each tab renders the "no data" warning
    and nothing else. *)
Theorem empty_region_set_empties_the_view :
  (forall (rs : list row) (y r m : num * num),
      df_filtered rs {| f_year_range := y; f_regions := [];
                        f_revenue_range := r; f_margin_range := m |} = [])
  /\ (forall (df : frame row) (yr rr mr : pyobj),
        exists out v,
          apply_filters df yr (OList []) rr mr = (out, inr v)
          /\ rows v = [])
  /\ (forall v : frame vrow,
        rows v = [] -> tab1 v = emit no_data /\ tab2 v = emit no_data).
Proof.
  split; [exact df_filtered_no_region|]. split.
  - intros df yr rr mr. unfold apply_filters, try_except, bind, col, as_range,
      as_regions, ret, raise, emit.
    repeat case_bool_decide; destruct yr, rr, mr; simpl;
      try (eexists _, _; split; [reflexivity|]; simpl;
           first [reflexivity | apply df_filtered_no_region]).
  - intros v Hv. unfold tab1, tab2. now rewrite (empty_no_rows v Hv).
Qed.

(** C10, at a concrete input. *)
Lemma empty_region_set_witness :
  tab1 {| columns := all_columns; rows := [] |} = emit no_data
  /\ tab2 {| columns := all_columns; rows := [] |} = emit no_data.
Proof.
  apply (proj2 (proj2 empty_region_set_empties_the_view)). reflexivity.
Defined.

(** C1 as the code has it.  On a view with zero records the mean ESG and
    the mean revenue are NaN (never 0), the three deltas are [None] and
    so are never computed from a NaN, the emission total is 0; the cards
    show the texts "nan" and "$nanM" as their values, "0 tCO2" for the
    emissions, and no delta. *)
Theorem empty_view_means_are_nan (df : list row) :
  avg_esg [] = NaN
  /\ avg_revenue [] = NaN
  /\ total_emissions [] = Fin 0
  /\ delta_esg df [] = None
  /\ delta_revenue df [] = None
  /\ delta_emissions df [] = None
  /\ metric_esg df [] = Metric "🌱 Média ESG Geral" "nan" None
  /\ metric_revenue df [] = Metric "💸 Receita Média" "$nanM" None
  /\ metric_emissions df [] = Metric "🏭 Emissões Totais" "0 tCO2" None.
Proof. repeat split. Qed.

(** C1, the claim as stated fails: a year range that selects no record
    of the sample table gives a view with zero records whose mean ESG is
    NaN, and the card shows the number format's "nan", not "no data". *)
Lemma empty_view_shows_nan :
  let f := {| f_year_range := (Num.of_Z 1990, Num.of_Z 1995);
              f_regions := ["NA"; "EU"];
              f_revenue_range := (Fin 0, Fin 1000);
              f_margin_range := (Fin (-100), Fin 100) |} in
  let v := df_filtered sample_base f in
  v = []
  /\ Num.is_nan (avg_esg v) = true
  /\ Num.is_nan (avg_revenue v) = true
  /\ shown_value (metric_esg sample_base v) = Some "nan"
  /\ shown_value (metric_revenue sample_base v) = Some "$nanM"
  /\ shown_value (metric_esg sample_base v) <> Some "no data".
Proof. vm_compute. repeat split; discriminate. Qed.

(** ** Order on the numbers *)

Lemma leb_trans (x y z : num) :
  Num.leb x y = true -> Num.leb y z = true -> Num.leb x z = true.
Proof.
  destruct x as [a| | |], y as [b| | |], z as [c| | |]; simpl;
    try discriminate; try reflexivity.
  rewrite !Qle_bool_iff. apply Qle_trans.
Qed.

Lemma leb_total (x y : num) :
  Num.is_nan x = false -> Num.is_nan y = false ->
  Num.leb x y = false -> Num.leb y x = true.
Proof.
  destruct x as [a| | |], y as [b| | |]; simpl; try discriminate;
    try reflexivity.
  intros _ _ H. apply Qle_bool_iff.
  destruct (Qlt_le_dec b a) as [L|L].
  - now apply Qlt_le_weak.
  - apply Qle_bool_iff in L. congruence.
Qed.

Lemma leb_not_nan (x y : num) :
  Num.leb x y = true -> Num.is_nan x = false /\ Num.is_nan y = false.
Proof. destruct x, y; simpl; try discriminate; auto. Qed.

(** ** The stable sort *)

Section SortFacts.

Context {A : Type} (le : A -> A -> bool).

Lemma insert_by_perm (x : A) (l : list A) : insert_by le x l ≡ₚ x :: l.
Proof.
  induction l as [|y l IH]; simpl; [reflexivity|].
  destruct (le x y); [reflexivity|].
  rewrite IH. apply Permutation_swap.
Qed.

Lemma sort_by_perm (l : list A) : sort_by le l ≡ₚ l.
Proof.
  induction l as [|x l IH]; simpl; [reflexivity|].
  now rewrite insert_by_perm, IH.
Qed.

Lemma length_sort_by (l : list A) : length (sort_by le l) = length l.
Proof. apply Permutation_length, sort_by_perm. Qed.

(** Sortedness needs the order to be total and transitive on the
    elements that are sorted, which [P] singles out. *)
Variable P : A -> Prop.
Hypothesis le_total : forall x y, P x -> P y -> le x y = false -> le y x = true.
Hypothesis le_trans :
  forall x y z, le x y = true -> le y z = true -> le x z = true.

Lemma insert_by_sorted (x : A) (l : list A) :
  P x -> Forall P l ->
  StronglySorted (fun a b => le a b = true) l ->
  StronglySorted (fun a b => le a b = true) (insert_by le x l).
Proof.
  intros Px HP HS. induction HS as [|y l HS IH Hy]; simpl.
  - repeat constructor.
  - apply Forall_cons in HP as [Py HP].
    destruct (le x y) eqn:E.
    + constructor; [now constructor|].
      constructor; [exact E|].
      eapply Forall_impl; [exact Hy|]. intros z Hz. simpl in Hz. eauto.
    + constructor; [now apply IH|].
      rewrite insert_by_perm. constructor; [now apply le_total|exact Hy].
Qed.

Lemma sort_by_sorted (l : list A) :
  Forall P l -> StronglySorted (fun a b => le a b = true) (sort_by le l).
Proof.
  induction l as [|x l IH]; simpl; intros HP; [constructor|].
  apply Forall_cons in HP as [Px HP].
  apply insert_by_sorted; [exact Px| |now apply IH].
  now rewrite sort_by_perm.
Qed.

End SortFacts.

(** Stability: the elements that a predicate selects keep their order,
    as soon as none of them is strictly after another one. *)
Lemma filter_insert_by {A : Type} (le : A -> A -> bool) (p : A -> bool)
  (x : A) (l : list A) :
  (forall y, p x = true -> p y = true -> le x y = true) ->
  List.filter p (insert_by le x l) = List.filter p (x :: l).
Proof.
  intros H. induction l as [|y l IH]; [reflexivity|].
  simpl. destruct (le x y) eqn:E; [reflexivity|].
  simpl in *. rewrite IH.
  destruct (p x) eqn:Px, (p y) eqn:Py; try reflexivity.
  rewrite (H y) in E by auto. discriminate.
Qed.

Lemma filter_sort_by {A : Type} (le : A -> A -> bool) (p : A -> bool)
  (l : list A) :
  (forall x y, p x = true -> p y = true -> le x y = true) ->
  List.filter p (sort_by le l) = List.filter p l.
Proof.
  intros H. induction l as [|x l IH]; [reflexivity|].
  simpl sort_by. rewrite filter_insert_by by auto.
  simpl. now rewrite IH.
Qed.

Lemma filter_filter_absorb {A : Type} (p q : A -> bool) (l : list A) :
  (forall x, p x = true -> q x = true) ->
  List.filter p (List.filter q l) = List.filter p l.
Proof.
  intros H. induction l as [|x l IH]; [reflexivity|].
  simpl. destruct (q x) eqn:Q; simpl; rewrite IH; [reflexivity|].
  destruct (p x) eqn:Px; [|reflexivity].
  rewrite (H x Px) in Q. discriminate.
Qed.

Lemma filter_none {A : Type} (p q : A -> bool) (l : list A) :
  (forall x, q x = true -> p x = false) ->
  List.filter p (List.filter q l) = [].
Proof.
  intros H. induction l as [|x l IH]; [reflexivity|].
  simpl. destruct (q x) eqn:Q; simpl; [|exact IH].
  now rewrite (H x Q).
Qed.

Lemma StronglySorted_weaken {A : Type} (R R' : A -> A -> Prop) (l : list A) :
  (forall x y, R x y -> R' x y) -> StronglySorted R l -> StronglySorted R' l.
Proof.
  intros H HS. induction HS as [|x l HS IH Hx]; constructor; [exact IH|].
  eapply Forall_impl; [exact Hx|]. intros y. apply H.
Qed.

Lemma StronglySorted_take {A : Type} (R : A -> A -> Prop) (n : nat) (l : list A) :
  StronglySorted R l -> StronglySorted R (take n l).
Proof.
  intros H. rewrite <- (take_drop n l) in H.
  now apply StronglySorted_app_1_l in H.
Qed.

(** ** Ranking *)

Section RankingFacts.

Variable metric : vrow -> num.

Lemma ranked_length (v : list vrow) :
  length (sort_by (desc metric) (present metric v) ++ missing metric v) = length v.
Proof.
  rewrite length_app, length_sort_by. unfold present, missing.
  pose proof (List.filter_length (fun r => Num.is_nan (metric r)) v).
  lia.
Qed.

Lemma ranked_sorted (v : list vrow) :
  StronglySorted (descending metric)
    (sort_by (desc metric) (present metric v) ++ missing metric v).
Proof.
  apply StronglySorted_app. split; [|split].
  - intros x y _ Hy. right. unfold missing in Hy.
    apply list_elem_of_In, filter_In in Hy. tauto.
  - apply (StronglySorted_weaken (fun a b => desc metric a b = true)).
    + intros x y H. now left.
    + apply (sort_by_sorted (desc metric)
               (fun r => Num.is_nan (metric r) = false)).
      * unfold desc. intros x y Hx Hy. now apply leb_total.
      * unfold desc. intros x y z H1 H2. eapply leb_trans; eauto.
      * apply Forall_forall. intros x Hx. unfold present in Hx.
        apply list_elem_of_In, filter_In in Hx.
        destruct Hx as [_ Hx]. now apply negb_true_iff in Hx.
  - unfold missing. induction v as [|r v IH]; simpl; [constructor|].
    destruct (Num.is_nan (metric r)) eqn:E; [|exact IH].
    constructor; [exact IH|].
    apply Forall_forall. intros y Hy. right.
    apply list_elem_of_In, filter_In in Hy. tauto.
Qed.

Lemma ranked_stable (c : num) (v : list vrow) :
  List.filter (fun r => Num.eqb (metric r) c)
    (sort_by (desc metric) (present metric v) ++ missing metric v)
  = List.filter (fun r => Num.eqb (metric r) c) v.
Proof.
  rewrite List.filter_app. unfold missing at 1.
  rewrite filter_none, app_nil_r.
  - rewrite filter_sort_by.
    + unfold present. apply filter_filter_absorb.
      intros x Hx. unfold Num.eqb in Hx. apply andb_true_iff in Hx as [Hx _].
      apply leb_not_nan in Hx as [Hx _]. now rewrite Hx.
    + intros x y Hx Hy. unfold desc, Num.eqb in *.
      apply andb_true_iff in Hx as [_ Hx]. apply andb_true_iff in Hy as [Hy _].
      eapply leb_trans; eauto.
  - intros x Hx. unfold Num.eqb.
    destruct (Num.leb (metric x) c) eqn:E; [|reflexivity].
    apply leb_not_nan in E as [E _]. congruence.
Qed.

Lemma ranked_missing (v : list vrow) :
  List.filter (fun r => Num.is_nan (metric r))
    (sort_by (desc metric) (present metric v) ++ missing metric v)
  = List.filter (fun r => Num.is_nan (metric r)) v.
Proof.
  rewrite List.filter_app. unfold missing.
  rewrite (filter_filter_absorb _ _ v) by auto.
  replace (List.filter _ (sort_by (desc metric) (present metric v))) with (@nil vrow);
    [reflexivity|].
  symmetry. apply (map_eq_nil_inv id).
  assert (H : Forall (fun r => Num.is_nan (metric r) = false)
                (sort_by (desc metric) (present metric v))).
  { rewrite sort_by_perm. apply Forall_forall. intros x Hx. unfold present in Hx.
    apply list_elem_of_In, filter_In in Hx.
    destruct Hx as [_ Hx]. now apply negb_true_iff in Hx. }
  induction H as [|x l Hx _ IH]; simpl; [reflexivity|].
  now rewrite Hx.
Qed.

(** C7.  For every view, metric column and row count [n], [nlargest]
    returns exactly [min n (number of rows)] rows, hence none on the
    empty view; they are in descending order of the metric, rows with a
    missing metric after the others; the result is the first [n] rows of
    the full ranking, which is a permutation of the view in which the
    rows of one metric value, and the rows with a missing metric, stand
    in the order of the table.  Being a function of its three arguments,
    the result is the same on every call with the same input. *)
Theorem nlargest_is_a_stable_descending_prefix (n : nat) (v : list vrow) :
  length (nlargest n metric v) = Nat.min n (length v)
  /\ nlargest n metric [] = []
  /\ StronglySorted (descending metric) (nlargest n metric v)
  /\ nlargest n metric v = take n (nlargest (length v) metric v)
  /\ nlargest (length v) metric v ≡ₚ v
  /\ (forall c : num,
        List.filter (fun r => Num.eqb (metric r) c) (nlargest (length v) metric v)
        = List.filter (fun r => Num.eqb (metric r) c) v)
  /\ List.filter (fun r => Num.is_nan (metric r)) (nlargest (length v) metric v)
     = List.filter (fun r => Num.is_nan (metric r)) v.
Proof.
  unfold nlargest.
  assert (F : take (length v) (sort_by (desc metric) (present metric v) ++ missing metric v)
              = sort_by (desc metric) (present metric v) ++ missing metric v).
  { apply take_ge. now rewrite ranked_length. }
  rewrite F. repeat split.
  - now rewrite length_take, ranked_length.
  - now destruct n.
  - apply StronglySorted_take, ranked_sorted.
  - rewrite sort_by_perm. unfold present, missing.
    clear F. induction v as [|r v IH]; simpl; [reflexivity|].
    destruct (Num.is_nan (metric r)); simpl.
    + now rewrite <- Permutation_middle, IH.
    + now rewrite IH.
  - intros c. apply ranked_stable.
  - apply ranked_missing.
Qed.

End RankingFacts.

(** ** Order on the group labels *)

Lemma string_leb_cases (a b : string) :
  String.leb a b = true <-> a = b \/ String.ltb a b = true.
Proof.
  unfold String.leb, String.ltb.
  destruct (String.compare a b) eqn:E.
  - apply String.compare_eq_iff in E. tauto.
  - tauto.
  - split; [discriminate|]. intros [->|H]; [|discriminate].
    assert (String.compare b b = Eq)
      by now apply OrderedTypeEx.String_as_OT.cmp_eq.
    congruence.
Qed.

Lemma string_ltb_lt (a b : string) :
  String.ltb a b = true <-> OrderedTypeEx.String_as_OT.lt a b.
Proof.
  rewrite <- OrderedTypeEx.String_as_OT.cmp_lt.
  unfold String.ltb, OrderedTypeEx.String_as_OT.cmp.
  destruct (String.compare a b); split; congruence.
Qed.

Lemma string_ltb_trans (a b c : string) :
  String.ltb a b = true -> String.ltb b c = true -> String.ltb a c = true.
Proof.
  rewrite !string_ltb_lt. apply OrderedTypeEx.String_as_OT.lt_trans.
Qed.

Lemma string_leb_trans (a b c : string) :
  String.leb a b = true -> String.leb b c = true -> String.leb a c = true.
Proof.
  rewrite !string_leb_cases. intros [->|H1] [->|H2]; auto.
  right. eapply string_ltb_trans; eauto.
Qed.

Lemma key_eqb_eq (k1 k2 : group_key) : key_eqb k1 k2 = true <-> k1 = k2.
Proof.
  destruct k1 as [y1 s1], k2 as [y2 s2]. unfold key_eqb. simpl.
  rewrite andb_true_iff, Z.eqb_eq, String.eqb_eq.
  split; [intros [-> ->]; reflexivity|]. intros H. now inversion H.
Qed.

Lemma key_leb_total (k1 k2 : group_key) :
  key_leb k1 k2 = false -> key_leb k2 k1 = true.
Proof.
  destruct k1 as [y1 s1], k2 as [y2 s2]. unfold key_leb. simpl.
  rewrite orb_false_iff, andb_false_iff, orb_true_iff, andb_true_iff.
  rewrite Z.ltb_ge, Z.ltb_lt, !Z.eqb_neq, Z.eqb_eq.
  intros [H1 [H2|H2]].
  - left. lia.
  - destruct (Z.eq_dec y1 y2) as [->|N]; [|left; lia].
    right. split; [reflexivity|].
    destruct (String.leb_total s1 s2) as [H|H]; [congruence|exact H].
Qed.

Lemma key_leb_trans (k1 k2 k3 : group_key) :
  key_leb k1 k2 = true -> key_leb k2 k3 = true -> key_leb k1 k3 = true.
Proof.
  destruct k1 as [y1 s1], k2 as [y2 s2], k3 as [y3 s3]. unfold key_leb. simpl.
  rewrite !orb_true_iff, !andb_true_iff, !Z.ltb_lt, !Z.eqb_eq.
  intros [H1|[H1 L1]] [H2|[H2 L2]]; try (left; lia).
  right. split; [lia|]. eapply string_leb_trans; eauto.
Qed.

Lemma key_leb_strict (k1 k2 : group_key) :
  key_leb k1 k2 = true -> k1 <> k2 -> key_lt k1 k2.
Proof.
  destruct k1 as [y1 s1], k2 as [y2 s2]. unfold key_leb, key_lt. simpl.
  rewrite orb_true_iff, andb_true_iff, Z.ltb_lt, Z.eqb_eq.
  intros [H|[-> H]] N; [now left|].
  right. split; [reflexivity|].
  apply string_leb_cases in H as [->|H]; [congruence|exact H].
Qed.

(** ** Trend *)

Lemma existsb_key_eqb (k : group_key) (seen : list group_key) :
  existsb (key_eqb k) seen = true <-> k ∈ seen.
Proof.
  rewrite existsb_exists, list_elem_of_In. split.
  - intros (x & Hx & E). apply key_eqb_eq in E. now subst.
  - intros H. exists k. split; [exact H|]. now apply key_eqb_eq.
Qed.

Lemma elem_of_distinct (seen ks : list group_key) (k : group_key) :
  k ∈ distinct seen ks <-> k ∈ ks /\ k ∉ seen.
Proof.
  revert seen. induction ks as [|x ks IH]; intros seen; simpl.
  - rewrite elem_of_nil. tauto.
  - destruct (existsb (key_eqb x) seen) eqn:E.
    + apply existsb_key_eqb in E. rewrite IH, elem_of_cons.
      split; [tauto|]. intros [[->|H] N]; tauto.
    + assert (x ∉ seen) as N.
      { intros H. apply existsb_key_eqb in H. congruence. }
      rewrite !elem_of_cons, IH, elem_of_cons.
      destruct (decide (k = x)) as [->|D]; tauto.
Qed.

Lemma NoDup_distinct (seen ks : list group_key) : NoDup (distinct seen ks).
Proof.
  revert seen. induction ks as [|x ks IH]; intros seen; simpl.
  - constructor.
  - destruct (existsb (key_eqb x) seen); [apply IH|].
    constructor; [|apply IH].
    rewrite elem_of_distinct, elem_of_cons. tauto.
Qed.

Lemma trend_keys (v : list vrow) : map t_key (df_trend v) = group_keys v.
Proof.
  unfold df_trend. rewrite map_map. rewrite <- (map_id (group_keys v)) at 2.
  apply map_ext. now intros [y s].
Qed.

Lemma elem_of_group_keys (v : list vrow) (k : group_key) :
  k ∈ group_keys v <-> exists r, r ∈ v /\ key_of_row r = k.
Proof.
  unfold group_keys. rewrite sort_by_perm, elem_of_distinct.
  rewrite list_elem_of_In, in_map_iff.
  setoid_rewrite <- list_elem_of_In. split.
  - intros [(r & E & H) _]. eauto.
  - intros (r & H & E). split; [eauto|apply not_elem_of_nil].
Qed.

Lemma NoDup_group_keys (v : list vrow) : NoDup (group_keys v).
Proof. unfold group_keys. rewrite sort_by_perm. apply NoDup_distinct. Qed.

Lemma StronglySorted_strict {A : Type} (R : A -> A -> Prop) (l : list A) :
  StronglySorted R l -> NoDup l ->
  StronglySorted (fun x y => R x y /\ x <> y) l.
Proof.
  intros HS. induction HS as [|x l HS IH Hx]; intros ND; [constructor|].
  apply NoDup_cons in ND as [Nx ND].
  constructor; [now apply IH|].
  apply Forall_forall. intros y Hy. split.
  - rewrite Forall_forall in Hx. now apply Hx.
  - intros ->. contradiction.
Qed.

Lemma group_keys_sorted (v : list vrow) : StronglySorted key_lt (group_keys v).
Proof.
  apply (StronglySorted_weaken
           (fun x y => key_leb x y = true /\ x <> y)).
  - intros x y [H N]. now apply key_leb_strict.
  - apply StronglySorted_strict; [|apply NoDup_group_keys].
    unfold group_keys.
    apply (sort_by_sorted key_leb (fun _ => True)).
    + intros x y _ _. apply key_leb_total.
    + apply key_leb_trans.
    + apply Forall_forall. auto.
Qed.

(** C8.  For every view the trend table has one row for each distinct
    (year, region) pair that occurs in the view and no other row: its
    labels are pairwise distinct, a pair is a label exactly when some
    record of the view carries it, so every row aggregates a group that
    is not empty; the rows stand in strictly ascending order of the year
    and, within a year, of the region name. *)
Theorem trend_rows_are_the_occurring_groups_in_order (v : list vrow) :
  NoDup (map t_key (df_trend v))
  /\ (forall k, k ∈ map t_key (df_trend v) <-> exists r, r ∈ v /\ key_of_row r = k)
  /\ Forall (fun t => group (t_key t) v <> []
                      /\ t = aggregate (t_key t) (group (t_key t) v))
       (df_trend v)
  /\ StronglySorted key_lt (map t_key (df_trend v)).
Proof.
  rewrite trend_keys. split; [apply NoDup_group_keys|].
  split; [apply elem_of_group_keys|].
  split; [|apply group_keys_sorted].
  apply Forall_forall. intros t Ht.
  unfold df_trend in Ht. apply list_elem_of_In, in_map_iff in Ht.
  destruct Ht as (k & <- & Hk).
  assert (E : t_key (aggregate k (group k v)) = k) by now destruct k.
  rewrite E. split; [|reflexivity].
  apply list_elem_of_In, elem_of_group_keys in Hk.
  destruct Hk as (r & Hr & Hk). intros G.
  assert (r ∈ group k v) as Hin.
  { unfold group. apply list_elem_of_In, filter_In. split.
    - now apply list_elem_of_In.
    - now apply key_eqb_eq. }
  rewrite G in Hin. now apply elem_of_nil in Hin.
Qed.

(** ** Sums and means *)

Lemma filter_idem {A : Type} (p : A -> bool) (l : list A) :
  List.filter p (List.filter p l) = List.filter p l.
Proof. now apply filter_filter_absorb. Qed.

Lemma mean_skips_missing (xs : list num) :
  Num.mean xs = Num.mean (List.filter not_missing xs).
Proof.
  unfold Num.mean, Num.count, Num.sum, not_missing.
  now rewrite !filter_idem.
Qed.

(** ** Emission intensity *)

Lemma add_is_fin (x y : num) :
  Num.is_fin (Num.add x y) = Num.is_fin x && Num.is_fin y.
Proof. now destruct x, y. Qed.

Lemma fold_add_not_fin (ys : list num) (acc : num) :
  Num.is_fin acc = false \/ (exists y, y ∈ ys /\ Num.is_fin y = false) ->
  Num.is_fin (fold_left Num.add ys acc) = false.
Proof.
  revert acc. induction ys as [|y ys IH]; intros acc; simpl.
  - intros [H|(y & Hy & _)]; [exact H|]. now apply elem_of_nil in Hy.
  - intros H. apply IH. rewrite add_is_fin.
    destruct H as [H|(z & Hz & Fz)].
    + left. now rewrite H.
    + apply elem_of_cons in Hz. destruct Hz as [->|Hz].
      * left. rewrite Fz. apply andb_false_r.
      * right. eauto.
Qed.

(** A column with an infinite cell has no finite mean. *)
Lemma mean_not_fin (xs : list num) :
  (exists x, x ∈ xs /\ is_inf x = true) -> Num.is_fin (Num.mean xs) = false.
Proof.
  intros (x & Hx & Ix). unfold Num.mean, Num.count.
  assert (Hin : x ∈ List.filter (fun x => negb (Num.is_nan x)) xs).
  { apply list_elem_of_In, filter_In. split; [now apply list_elem_of_In|].
    now destruct x. }
  destruct (List.filter _ xs) as [|y ys] eqn:E.
  - now apply elem_of_nil in Hin.
  - cbn [length].
    assert (S : Num.is_fin (Num.sum xs) = false).
    { unfold Num.sum. rewrite E. apply fold_add_not_fin. right.
      exists x. split; [exact Hin|]. now destruct x. }
    destruct (Num.sum xs); try discriminate; unfold Num.of_Z, Num.div;
      try reflexivity; now destruct (Qle_bool _ _).
Qed.

(** Division by a zero revenue: NaN for emissions that are 0 or missing,
    an infinity for any other emissions. *)
Lemma div_by_zero (e : num) (q : Q) :
  (q == 0)%Q ->
  (Num.is_nan (Num.div e (Fin q)) = true <-> no_emissions e)
  /\ (Num.is_nan (Num.div e (Fin q)) = false -> is_inf (Num.div e (Fin q)) = true).
Proof.
  intros Hq. apply Qeq_bool_iff in Hq as Hb.
  assert (Qle_bool 0 q = true) as Hl.
  { apply Qle_bool_iff. rewrite Hq. apply Qle_refl. }
  unfold no_emissions.
  destruct e as [a| | |]; simpl; rewrite ?Hb, ?Hl.
  - unfold Num.inf_of_sign. destruct (a ?= 0)%Q eqn:C; simpl.
    + split; [|discriminate]. split; [|reflexivity]. intros _. right. exists a.
      split; [reflexivity|]. now apply Qeq_alt.
    + split; [|reflexivity]. split; [discriminate|].
      intros [N|(b & E & Hz)]; [discriminate|].
      injection E as <-. apply Qeq_alt in Hz. congruence.
    + split; [|reflexivity]. split; [discriminate|].
      intros [N|(b & E & Hz)]; [discriminate|].
      injection E as <-. apply Qeq_alt in Hz. congruence.
  - split; [|reflexivity]. split; [discriminate|].
    intros [N|(b & E & _)]; discriminate.
  - split; [|reflexivity]. split; [discriminate|].
    intros [N|(b & E & _)]; discriminate.
  - split; [|discriminate]. split; [now left|reflexivity].
Qed.

(** C3 as the code has it.  For a record of the view with revenue 0 the
    emission intensity is undefined (NaN) exactly when the emissions are
    0 or missing; for any other emissions it is infinite, a numeric
    value that is not the missing-value marker.  The per-(year, region)
    mean of the intensity is the mean of the intensities of the group
    that are not NaN: NaN is skipped, not counted as zero, while an
    infinite intensity stays among the averaged values, and a group
    that holds one has no finite mean. *)
Theorem zero_revenue_intensity_is_nan_or_infinite (rs : list row) (f : filters) :
  Forall (fun r => zero_revenue (base_row r) ->
            (Num.is_nan (Emissao_por_Receita r) = true
             <-> no_emissions (Emissao_Carbono (base_row r)))
            /\ (Num.is_nan (Emissao_por_Receita r) = false ->
                is_inf (Emissao_por_Receita r) = true))
    (df_filtered rs f)
  /\ (forall v : list vrow,
        Forall (fun t => t_Emissao_por_Receita t =
                         Num.mean (List.filter not_missing (intensities t v))
                         /\ ((exists x, x ∈ intensities t v /\ is_inf x = true) ->
                             Num.is_fin (t_Emissao_por_Receita t) = false))
          (df_trend v)).
Proof.
  split.
  - unfold df_filtered. rewrite add_intensity_rowwise.
    apply Forall_forall. intros r Hr.
    apply list_elem_of_In, in_map_iff in Hr. destruct Hr as (x & <- & _).
    intros (q & E & Hq). cbn [Emissao_por_Receita base_row] in *.
    rewrite E. now apply div_by_zero.
  - intros v. apply Forall_forall. intros t Ht.
    unfold df_trend in Ht. apply list_elem_of_In, in_map_iff in Ht.
    destruct Ht as (k & <- & _). unfold intensities.
    assert (E : t_key (aggregate k (group k v)) = k) by now destruct k.
    rewrite E. simpl. split.
    + apply mean_skips_missing.
    + apply mean_not_fin.
Qed.

(** C3 at a concrete input: the first record of the view has revenue 0
    and emissions 5; its intensity is not NaN, it is infinite. *)
Lemma zero_revenue_intensity_witness :
  Forall (fun r => zero_revenue (base_row r) ->
            (Num.is_nan (Emissao_por_Receita r) = true
             <-> no_emissions (Emissao_Carbono (base_row r)))
            /\ (Num.is_nan (Emissao_por_Receita r) = false ->
                is_inf (Emissao_por_Receita r) = true))
    (df_filtered zero_revenue_base example_filter)
  /\ exists r, r ∈ df_filtered zero_revenue_base example_filter
               /\ zero_revenue (base_row r)
               /\ Num.is_nan (Emissao_por_Receita r) = false.
Proof.
  split.
  - apply (zero_revenue_intensity_is_nan_or_infinite
             zero_revenue_base example_filter).
  - eexists. split; [apply list_elem_of_here|].
    split; [|reflexivity].
    exists 0%Q. split; reflexivity.
Defined.

(** C3, the claim as stated fails: the record with revenue 0 and
    emissions 5 gets the intensity plus infinity, which is not the
    missing-value marker, and the mean of its group is plus infinity
    instead of the 1/20 of the other record. *)
Lemma zero_revenue_intensity_is_infinite :
  let v := df_filtered zero_revenue_base example_filter in
  map (fun r => Receita (base_row r)) v = [Fin 0; Fin 100]
  /\ map Emissao_por_Receita v = [PInf; Fin (1 # 20)]
  /\ map Num.is_nan (map Emissao_por_Receita v) = [false; false]
  /\ map t_Emissao_por_Receita (df_trend v) = [PInf]
  /\ Num.mean (List.filter (fun x => Num.is_fin x) (map Emissao_por_Receita v))
     = Fin (1 # 20).
Proof. vm_compute. repeat split. Qed.

(** ** The deltas of the KPI cards *)

Lemma filter_eq_or_shorter {A : Type} (p : A -> bool) (l : list A) :
  List.filter p l = l \/ (length (List.filter p l) < length l)%nat.
Proof.
  induction l as [|x l IH]; [now left|].
  simpl. pose proof (List.filter_length_le p l).
  destruct (p x); simpl.
  - destruct IH as [->|IH]; [now left|right; lia].
  - right. lia.
Qed.

Lemma view_differs_iff_shorter (df : list row) (f : filters) :
  map base_row (df_filtered df f) <> df
  <-> length (df_filtered df f) <> length df.
Proof.
  rewrite <- (length_map base_row (df_filtered df f)), df_filtered_rowwise.
  split.
  - intros N. destruct (filter_eq_or_shorter (passes f) df); [contradiction|lia].
  - intros N E. now rewrite E in N.
Qed.

Lemma delta_text_shown {A : Type} (truthy : A -> bool) (fmt : A -> string)
  (d : option A) :
  delta_text truthy fmt d <> None <-> exists x, d = Some x /\ truthy x = true.
Proof.
  unfold delta_text. destruct d as [x|]; [destruct (truthy x) eqn:E|].
  - split; [eauto|discriminate].
  - split; [congruence|]. intros (y & Hy & T). congruence.
  - split; [congruence|]. intros (y & Hy & _). discriminate.
Qed.

Lemma unless_empty_shown {A : Type} (truthy : A -> bool) (fmt : A -> string)
  (v : list vrow) (x : A) :
  delta_text truthy fmt (unless_empty v x) <> None <-> v <> [] /\ truthy x = true.
Proof.
  rewrite delta_text_shown. destruct v as [|r v]; simpl.
  - split; [intros (y & Hy & _); discriminate|]. intros [N _]. congruence.
  - split.
    + intros (y & Hy & T). split; [discriminate|congruence].
    + intros [_ T]. eauto.
Qed.

Lemma column_of_equal_view (field : row -> num) (df : list row) (v : list vrow) :
  map base_row v = df -> map (fun r => field (base_row r)) v = map field df.
Proof. intros <-. now rewrite map_map. Qed.

Lemma sub_self_truthy (x : num) :
  Num.truthy (Num.sub x x) = negb (Num.is_fin x).
Proof.
  destruct x as [q| | |]; try reflexivity.
  unfold Num.sub, Num.neg, Num.add, Num.truthy, Num.is_fin.
  apply negb_false_iff, Qeq_bool_iff.
  rewrite !Qred_correct. ring.
Qed.

(** C6 as the code has it.  The count delta is reported exactly when the
    view differs from the base table.  Each of the three other deltas
    (mean ESG, mean revenue, total emissions) is reported exactly when
    the view has a record and the delta is truthy, that is, not exactly
    0: a delta of exactly 0 is not displayed, whether or not the view
    differs from the base, and an empty view shows none.  When the view
    equals the base, no count delta is shown and each of the three other
    deltas is the value of its card minus itself; a value minus itself
    is falsy exactly when the value is a finite number. *)
Theorem deltas_are_shown_when_truthy (df : list row) (f : filters) :
  let v := df_filtered df f in
  (shown_delta (metric_count df v) <> None <-> map base_row v <> df)
  /\ (shown_delta (metric_esg df v) <> None <->
      v <> [] /\ Num.truthy (Num.sub (avg_esg v) (Num.mean (map ESG_Geral df))) = true)
  /\ (shown_delta (metric_revenue df v) <> None <->
      v <> [] /\ Num.truthy (Num.sub (avg_revenue v) (Num.mean (map Receita df))) = true)
  /\ (shown_delta (metric_emissions df v) <> None <->
      v <> [] /\ Num.truthy (Num.sub (total_emissions v)
                               (Num.sum (map Emissao_Carbono df))) = true)
  /\ (map base_row v = df ->
      shown_delta (metric_count df v) = None
      /\ delta_esg df v = unless_empty v (Num.sub (avg_esg v) (avg_esg v))
      /\ delta_revenue df v = unless_empty v (Num.sub (avg_revenue v) (avg_revenue v))
      /\ delta_emissions df v =
         unless_empty v (Num.sub (total_emissions v) (total_emissions v)))
  /\ (forall x : num, Num.truthy (Num.sub x x) = negb (Num.is_fin x)).
Proof.
  intros v. split; [|split; [|split; [|split; [|split]]]].
  - unfold v at 2. rewrite view_differs_iff_shorter. fold v. simpl. unfold delta.
    rewrite delta_text_shown.
    destruct (Nat.eqb (length v) (length df)) eqn:E; simpl.
    + apply Nat.eqb_eq in E. split; [|congruence].
      intros (x & Hx & _). discriminate.
    + apply Nat.eqb_neq in E. split; [auto|]. intros _.
      eexists. split; [reflexivity|].
      unfold int_truthy. apply negb_true_iff, Z.eqb_neq. lia.
  - apply unless_empty_shown.
  - apply unless_empty_shown.
  - apply unless_empty_shown.
  - intros E. split.
    + simpl. unfold delta. rewrite <- E at 1. rewrite length_map, Nat.eqb_refl.
      reflexivity.
    + unfold delta_esg, delta_revenue, delta_emissions,
        avg_esg, avg_revenue, total_emissions.
      rewrite (column_of_equal_view ESG_Geral df _ E).
      rewrite (column_of_equal_view Receita df _ E).
      rewrite (column_of_equal_view Emissao_Carbono df _ E).
      repeat split.
  - apply sub_self_truthy.
Qed.

(** C6 at a concrete input: the example filter keeps the whole sample
    table; the count card shows no delta and the three other deltas are
    the card values minus themselves, here 0. *)
Lemma deltas_are_shown_when_truthy_witness :
  let v := df_filtered sample_base example_filter in
  map base_row v = sample_base
  /\ shown_delta (metric_count sample_base v) = None
  /\ delta_esg sample_base v = Some (Num.sub (avg_esg v) (avg_esg v))
  /\ delta_revenue sample_base v = Some (Num.sub (avg_revenue v) (avg_revenue v))
  /\ delta_emissions sample_base v =
     Some (Num.sub (total_emissions v) (total_emissions v)).
Proof.
  split; [reflexivity|].
  apply (deltas_are_shown_when_truthy sample_base example_filter).
  reflexivity.
Defined.

(** C6, the claim as stated fails: the year range keeps the first of two
    records with the same score, revenue and emission total; the view
    differs from the base, the three deltas are exactly 0 and none of
    them is displayed, only the count delta is. *)
Lemma zero_delta_is_not_displayed :
  let v := df_filtered twin_base only_2020 in
  map base_row v <> twin_base
  /\ delta_esg twin_base v = Some (Fin 0)
  /\ delta_revenue twin_base v = Some (Fin 0)
  /\ delta_emissions twin_base v = Some (Fin 0)
  /\ shown_delta (metric_esg twin_base v) = None
  /\ shown_delta (metric_revenue twin_base v) = None
  /\ shown_delta (metric_emissions twin_base v) = None
  /\ shown_delta (metric_count twin_base v) = Some "-1".
Proof. vm_compute. repeat split. discriminate. Qed.

(** The view equals the base and a delta is shown all the same: the one
    record has an infinite emission figure, the total is infinite on
    both sides and their difference is NaN, which is truthy. *)
Example infinite_total_shows_a_delta_on_the_whole_table :
  let v := df_filtered unbounded_base example_filter in
  map base_row v = unbounded_base
  /\ total_emissions v = PInf
  /\ delta_emissions unbounded_base v = Some NaN
  /\ shown_delta (metric_emissions unbounded_base v) = Some "nan tCO2"
  /\ shown_delta (metric_count unbounded_base v) = None.
Proof. vm_compute. repeat split. Qed.

(** ** The session state *)

Section SessionFacts.

Import Session.

Lemma key_of_not_reset (w : widget) : key_of w <> "reset".
Proof. destruct w; discriminate. Qed.

Lemma init_reset_shape (df : frame row) (st0 st1 : state) :
  contains "reset" st0 = false ->
  init_reset df st0 = ret st1 ->
  st1 = {| bindings := <["reset" := (length (heap st0) + 4)%nat]> (bindings st0);
           heap := heap st0 ++ baseline_heap (rows df) (length (heap st0)) |}.
Proof.
  intros C. unfold init_reset. rewrite C. unfold col.
  repeat case_bool_decide; try discriminate.
  unfold bind, ret, alloc, setitem. simpl.
  intros Hinit. injection Hinit as <-.
  rewrite !length_app. simpl.
  rewrite <- !app_assoc. simpl. unfold baseline_heap, baseline_dict. simpl.
  rewrite !Nat.add_1_r.
  now replace (length (heap st0) + 4)%nat
    with (S (S (S (S (length (heap st0)))))) by lia.
Qed.

Lemma init_holds_baseline (df : frame row) (st0 st1 : state) :
  contains "reset" st0 = false ->
  init_reset df st0 = ret st1 ->
  holds_baseline (rows df) (length (heap st0)) st1.
Proof.
  intros C H. rewrite (init_reset_shape df st0 st1 C H). split; simpl.
  - apply lookup_insert_eq.
  - exists (heap st0), []. split; reflexivity.
Qed.

Lemma user_sets_holds_baseline df n (w : widget) (o : pyobj) (st : state) :
  holds_baseline df n st -> holds_baseline df n (user_sets w o st).
Proof.
  intros [B (older & newer & L & H)]. split; simpl.
  - rewrite lookup_insert_ne; [exact B|apply key_of_not_reset].
  - exists older, (newer ++ [o]). split; [exact L|].
    rewrite H, <- !app_assoc. reflexivity.
Qed.

Lemma user_updates_holds_baseline df n (us : list (widget * pyobj)) (st : state) :
  holds_baseline df n st -> holds_baseline df n (user_updates us st).
Proof.
  revert st. induction us as [|[w o] us IH]; intros st H; simpl; [exact H|].
  apply IH. now apply user_sets_holds_baseline.
Qed.

Lemma baseline_heap_lookup df n (st : state) (w : widget) :
  holds_baseline df n st ->
  heap st !! baseline_loc n w = Some (baseline_of df w)
  /\ heap st !! (n + 4)%nat = Some (ODict (baseline_dict n)).
Proof.
  intros [_ (older & newer & L & H)]. rewrite H. subst n. split.
  - destruct w; simpl.
    + rewrite lookup_app_r by lia. now rewrite Nat.sub_diag.
    + rewrite lookup_app_r by lia.
      now replace (S (length older) - length older)%nat with 1%nat by lia.
    + rewrite lookup_app_r by lia.
      now replace (S (S (length older)) - length older)%nat with 2%nat by lia.
    + rewrite lookup_app_r by lia.
      now replace (S (S (S (length older))) - length older)%nat with 3%nat by lia.
  - rewrite lookup_app_r by lia.
    now replace (length older + 4 - length older)%nat with 4%nat by lia.
Qed.

Lemma dict_get_baseline (n : nat) (w : widget) :
  dict_get (key_of w) (baseline_dict n) = ret (baseline_loc n w).
Proof. destruct w; reflexivity. Qed.

Lemma reset_dict_baseline df n (st : state) :
  holds_baseline df n st -> reset_dict st = ret (baseline_dict n).
Proof.
  intros H. destruct (baseline_heap_lookup df n st year_range H) as [_ D].
  destruct H as [B _]. unfold reset_dict, getitem, deref.
  rewrite B, bind_ret, D. reflexivity.
Qed.

Lemma baseline_value_holds df n (st : state) (w : widget) :
  holds_baseline df n st ->
  reset_item (key_of w) st = ret (baseline_loc n w)
  /\ baseline_value (key_of w) st = ret (baseline_of df w).
Proof.
  intros H. destruct (baseline_heap_lookup df n st w H) as [O _].
  assert (R : reset_item (key_of w) st = ret (baseline_loc n w)).
  { unfold reset_item. rewrite (reset_dict_baseline df n st H), bind_ret.
    apply dict_get_baseline. }
  split; [exact R|].
  unfold baseline_value. rewrite R, bind_ret. unfold deref. now rewrite O.
Qed.

(** The state after the reset loop. *)
Lemma reset_button_shape df n (st : state) :
  holds_baseline df n st ->
  reset_button st =
  ret {| bindings :=
           <["margin_range" := S (S (S n))]>
             (<["revenue_range" := S (S n)]>
                (<["regions" := S n]>
                   (<["year_range" := n]> (bindings st))));
         heap := heap st |}.
Proof.
  intros H. unfold reset_button.
  rewrite (reset_dict_baseline df n st H). reflexivity.
Qed.

Lemma reset_button_binds df n (st st' : state) (w : widget) :
  holds_baseline df n st ->
  reset_button st = ret st' ->
  bindings st' !! key_of w = Some (baseline_loc n w)
  /\ holds_baseline df n st'.
Proof.
  intros H R. rewrite (reset_button_shape df n st H) in R.
  injection R as <-. split.
  - destruct w; simpl;
      repeat (first [rewrite lookup_insert_eq; reflexivity
                    |rewrite lookup_insert_ne by discriminate]).
  - destruct H as [B HH]. split; [|exact HH]. simpl.
    now rewrite !lookup_insert_ne by discriminate.
Qed.

(** C5 as the code has it.  After the baseline has been stored in a new
    session, and after any sequence of widget updates, the reset loop
    binds each of the four keys of the live state to the object the
    baseline holds for it: the live values are exactly the baseline's
    values, and these are still the ones computed from the table at the
    start, since a widget update binds its key to a new object and
    leaves every stored object as it is.  The live key and the baseline
    entry hold the same address: the reset shares the baseline's object,
    it does not copy it. *)
Theorem reset_rebinds_live_state_to_baseline_objects
  (df : frame row) (st0 st1 : state) (us : list (widget * pyobj)) :
  contains "reset" st0 = false ->
  init_reset df st0 = ret st1 ->
  exists st3,
    reset_button (user_updates us st1) = ret st3
    /\ forall w : widget,
         baseline_value (key_of w) st1 = ret (baseline_of (rows df) w)
         /\ baseline_value (key_of w) (user_updates us st1)
            = ret (baseline_of (rows df) w)
         /\ baseline_value (key_of w) st3 = ret (baseline_of (rows df) w)
         /\ live_value (key_of w) st3 = ret (baseline_of (rows df) w)
         /\ getitem (key_of w) st3 = reset_item (key_of w) st3.
Proof.
  intros C I.
  pose proof (init_holds_baseline df st0 st1 C I) as H1.
  set (n := length (heap st0)) in *.
  pose proof (user_updates_holds_baseline _ _ us _ H1) as H2.
  eexists. split; [apply (reset_button_shape _ _ _ H2)|].
  intros w.
  destruct (reset_button_binds _ _ _ _ w H2 (reset_button_shape _ _ _ H2))
    as [B H3].
  destruct (baseline_value_holds _ _ _ w H1) as [_ V1].
  destruct (baseline_value_holds _ _ _ w H2) as [_ V2].
  destruct (baseline_value_holds _ _ _ w H3) as [R3 V3].
  destruct (baseline_heap_lookup _ _ _ w H3) as [O3 _].
  repeat split; try assumption.
  - unfold live_value, getitem. rewrite B, bind_ret. unfold deref. now rewrite O3.
  - rewrite R3. unfold getitem. now rewrite B.
Qed.

End SessionFacts.

(** C5 at a concrete input: the sample table, a new session, and a user
    who narrows the region selection before pressing reset. *)
Lemma reset_rebinds_witness :
  exists st3,
    reset_button
      (Session.user_updates [(Session.regions, OList ["EU"])] sample_session)
    = ret st3
    /\ forall w : Session.widget,
         Session.baseline_value (Session.key_of w) sample_session
         = ret (baseline_of (rows sample_df) w)
         /\ Session.baseline_value (Session.key_of w)
              (Session.user_updates [(Session.regions, OList ["EU"])] sample_session)
            = ret (baseline_of (rows sample_df) w)
         /\ Session.baseline_value (Session.key_of w) st3
            = ret (baseline_of (rows sample_df) w)
         /\ Session.live_value (Session.key_of w) st3
            = ret (baseline_of (rows sample_df) w)
         /\ Session.getitem (Session.key_of w) st3
            = Session.reset_item (Session.key_of w) st3.
Proof.
  apply (reset_rebinds_live_state_to_baseline_objects
           sample_df Session.fresh sample_session).
  - reflexivity.
  - vm_compute. reflexivity.
Defined.

(** C5, the claim as stated fails: after a reset the live key [regions]
    and the baseline entry hold one and the same list object, so an
    append made through the live state shows in the stored baseline. *)
Lemma reset_shares_the_baseline_list :
  exists st3,
    reset_button sample_session = ret st3
    /\ Session.getitem "regions" st3 = ret 1%nat
    /\ Session.reset_item "regions" st3 = ret 1%nat
    /\ Session.baseline_value "regions" st3 = ret (OList ["EU"; "NA"])
    /\ Session.baseline_value "regions" (Session.list_append "regions" "XX" st3)
       = ret (OList ["EU"; "NA"; "XX"]).
Proof.
  eexists. split; [reflexivity|]. vm_compute. repeat split.
Qed.

(** ** The example of the specification *)

Lemma passes_example (name region : string) (year : Z) (rev esg : Q) (u : rest) :
  within_margin u ->
  (2020 <=? year) && (year <=? 2021) = true ->
  bool_decide (region ∈ ["NA"; "EU"]) = true ->
  Qle_bool 0 rev && Qle_bool rev 1000 = true ->
  passes example_filter (observation name region year rev esg u) = true.
Proof.
  intros [M1 M2] Hy Hr Hv. unfold passes, observation, example_filter.
  cbn [Ano Regiao Receita MargemLucro f_year_range f_regions f_revenue_range
       f_margin_range fst snd].
  unfold Num.geb, Num.leb, Num.of_Z. rewrite Hr, M1, M2.
  apply andb_true_iff in Hv as [-> ->].
  apply andb_true_iff in Hy as [Y1 Y2].
  rewrite !andb_true_r. apply andb_true_iff. split.
  - apply Qle_bool_iff. unfold Qle. simpl. lia.
  - apply Qle_bool_iff. unfold Qle. simpl. lia.
Qed.

(** C9.  On the three-record table of the example, whatever the
    attributes the example leaves open as long as the margins lie in the
    filter's range, the example filter keeps all three records in order;
    the count card shows 3; the mean ESG is 190/3 and its card shows
    63.3; the ranking by ESG cut to one row is the record of Beta (and
    the script's own cut to five rows starts with it); the trend table
    has the groups (2020, EU), (2020, NA), (2021, NA) in this order with
    the mean scores 80, 50 and 60. *)
Theorem specification_example_holds (u1 u2 u3 : rest) :
  within_margin u1 -> within_margin u2 -> within_margin u3 ->
  let base := example_base u1 u2 u3 in
  let v := df_filtered base example_filter in
  map base_row v = base
  /\ length v = 3%nat
  /\ shown_value (metric_count base v) = Some "3"
  /\ avg_esg v = Fin (190 # 3)
  /\ shown_value (metric_esg base v) = Some "63.3"
  /\ names (nlargest 1 m_ESG_Geral v) = ["Beta"]
  /\ names (top_esg v) = ["Beta"; "Acme"; "Acme"]
  /\ map (fun t => (t_Ano t, t_Regiao t, t_ESG_Geral t)) (df_trend v)
     = [(2020, "EU", Fin 80); (2020, "NA", Fin 50); (2021, "NA", Fin 60)].
Proof.
  intros M1 M2 M3 base v.
  assert (E : v = add_intensity base).
  { unfold v, df_filtered. rewrite mask_rowwise, select_map_filter.
    unfold base, example_base. cbn [List.filter].
    now rewrite !passes_example by (assumption || reflexivity). }
  rewrite E. split; [apply base_row_add_intensity|].
  unfold base, example_base, observation.
  repeat split; vm_compute; reflexivity.
Qed.

(** C9 at a concrete input: margins of 10 percent. *)
Lemma specification_example_witness :
  let base := example_base plain plain plain in
  let v := df_filtered base example_filter in
  map base_row v = base
  /\ length v = 3%nat
  /\ shown_value (metric_count base v) = Some "3"
  /\ avg_esg v = Fin (190 # 3)
  /\ shown_value (metric_esg base v) = Some "63.3"
  /\ names (nlargest 1 m_ESG_Geral v) = ["Beta"]
  /\ names (top_esg v) = ["Beta"; "Acme"; "Acme"]
  /\ map (fun t => (t_Ano t, t_Regiao t, t_ESG_Geral t)) (df_trend v)
     = [(2020, "EU", Fin 80); (2020, "NA", Fin 50); (2021, "NA", Fin 60)].
Proof.
  apply (specification_example_holds plain plain plain); split; reflexivity.
Defined.

(** ** The baseline of the sample table *)

Example init_reset_on_sample_table :
  init_reset sample_df Session.fresh = ret sample_session.
Proof. vm_compute. reflexivity. Qed.

(* ===================================================================== *)
(** * Further properties of the script                                   *)
(* ===================================================================== *)

(** ** Extrema of a column *)

Lemma leb_refl (x : num) : Num.is_nan x = false -> Num.leb x x = true.
Proof.
  destruct x; simpl; try discriminate; try reflexivity.
  intros _. apply Qle_bool_iff, Qle_refl.
Qed.

Lemma fold_min2_bound (ys : list num) (acc : num) :
  Forall (fun y => Num.is_nan y = false) ys -> Num.is_nan acc = false ->
  Num.is_nan (fold_left Num.min2 ys acc) = false
  /\ Num.leb (fold_left Num.min2 ys acc) acc = true
  /\ Forall (fun y => Num.leb (fold_left Num.min2 ys acc) y = true) ys.
Proof.
  intros H. revert acc. induction H as [|y ys Hy _ IH]; intros acc Ha; simpl.
  - split; [exact Ha|]. split; [now apply leb_refl|constructor].
  - assert (Hm : Num.is_nan (Num.min2 acc y) = false
                 /\ Num.leb (Num.min2 acc y) acc = true
                 /\ Num.leb (Num.min2 acc y) y = true).
    { unfold Num.min2. destruct (Num.leb acc y) eqn:E.
      - repeat split; [exact Ha|now apply leb_refl|exact E].
      - repeat split; [exact Hy|now apply leb_total|now apply leb_refl]. }
    destruct Hm as (N & L1 & L2). destruct (IH _ N) as (R1 & R2 & R3).
    split; [exact R1|]. split; [eapply leb_trans; eauto|].
    constructor; [eapply leb_trans; eauto|exact R3].
Qed.

Lemma fold_max2_bound (ys : list num) (acc : num) :
  Forall (fun y => Num.is_nan y = false) ys -> Num.is_nan acc = false ->
  Num.is_nan (fold_left Num.max2 ys acc) = false
  /\ Num.leb acc (fold_left Num.max2 ys acc) = true
  /\ Forall (fun y => Num.leb y (fold_left Num.max2 ys acc) = true) ys.
Proof.
  intros H. revert acc. induction H as [|y ys Hy _ IH]; intros acc Ha; simpl.
  - split; [exact Ha|]. split; [now apply leb_refl|constructor].
  - assert (Hm : Num.is_nan (Num.max2 acc y) = false
                 /\ Num.leb acc (Num.max2 acc y) = true
                 /\ Num.leb y (Num.max2 acc y) = true).
    { unfold Num.max2. destruct (Num.leb acc y) eqn:E.
      - repeat split; [exact Hy|exact E|now apply leb_refl].
      - repeat split; [exact Ha|now apply leb_refl|now apply leb_total]. }
    destruct Hm as (N & L1 & L2). destruct (IH _ N) as (R1 & R2 & R3).
    split; [exact R1|]. split; [eapply leb_trans; eauto|].
    constructor; [eapply leb_trans; eauto|exact R3].
Qed.

Lemma present_cells (xs : list num) :
  Forall (fun y => Num.is_nan y = false)
    (List.filter (fun x => negb (Num.is_nan x)) xs).
Proof.
  apply Forall_forall. intros x Hx. apply list_elem_of_In, filter_In in Hx.
  destruct Hx as [_ Hx]. now apply negb_true_iff in Hx.
Qed.

(** [Series.min()] and [Series.max()] bound every cell that is not
    missing. *)
Lemma min_max_bound (xs : list num) (x : num) :
  x ∈ xs -> Num.is_nan x = false ->
  Num.leb (Num.min xs) x = true /\ Num.leb x (Num.max xs) = true.
Proof.
  intros Hx Hn.
  assert (Hin : x ∈ List.filter (fun x => negb (Num.is_nan x)) xs).
  { apply list_elem_of_In, filter_In. split; [now apply list_elem_of_In|].
    now rewrite Hn. }
  pose proof (present_cells xs) as HP.
  unfold Num.min, Num.max, Num.extremum.
  destruct (List.filter _ xs) as [|x0 rest]; [now apply elem_of_nil in Hin|].
  apply Forall_cons in HP as [H0 HP].
  destruct (fold_min2_bound rest x0 HP H0) as (_ & A1 & A2).
  destruct (fold_max2_bound rest x0 HP H0) as (_ & B1 & B2).
  rewrite Forall_forall in A2, B2.
  apply elem_of_cons in Hin as [->|Hin]; [now split|].
  split; [now apply A2|now apply B2].
Qed.

(** ** The distinct values of a column *)

Lemma elem_of_unique_go (seen l : list string) (x : string) :
  x ∈ unique_go seen l <-> x ∈ l /\ x ∉ seen.
Proof.
  revert seen. induction l as [|y l IH]; intros seen; simpl.
  - rewrite elem_of_nil. tauto.
  - case_bool_decide as E.
    + rewrite IH, elem_of_cons. split; [tauto|].
      intros [[->|H] N]; tauto.
    + rewrite !elem_of_cons, IH, elem_of_cons.
      destruct (decide (x = y)) as [->|D]; tauto.
Qed.

Lemma NoDup_unique_go (seen l : list string) : NoDup (unique_go seen l).
Proof.
  revert seen. induction l as [|y l IH]; intros seen; simpl.
  - constructor.
  - case_bool_decide; [apply IH|].
    constructor; [|apply IH].
    rewrite elem_of_unique_go, elem_of_cons. tauto.
Qed.


Lemma elem_of_unique (l : list string) (x : string) : x ∈ unique l <-> x ∈ l.
Proof.
  unfold unique. rewrite elem_of_unique_go. split; [tauto|].
  intros H. split; [exact H|apply not_elem_of_nil].
Qed.

(** ** The filter at the baseline *)

Lemma passes_needs_revenue_and_margin (f : filters) (r : row) :
  passes f r = true -> has_revenue_and_margin r = true.
Proof.
  unfold passes, has_revenue_and_margin, not_missing, Num.geb.
  rewrite !andb_true_iff. intros [[[[[[_ _] _] R] _] M] _].
  apply leb_not_nan in R as [_ R]. apply leb_not_nan in M as [_ M].
  now rewrite R, M.
Qed.

Lemma passes_baseline (rs : list row) (r : row) :
  r ∈ rs -> has_revenue_and_margin r = true ->
  passes (baseline_filters rs) r = true.
Proof.
  intros Hr H. unfold has_revenue_and_margin, not_missing in H.
  apply andb_true_iff in H as [R M].
  apply negb_true_iff in R. apply negb_true_iff in M.
  apply list_elem_of_In in Hr.
  destruct (min_max_bound (map (fun r => Num.of_Z (Ano r)) rs) (Num.of_Z (Ano r)))
    as [Y1 Y2]; [apply list_elem_of_In, in_map_iff; eauto|reflexivity|].
  destruct (min_max_bound (map Receita rs) (Receita r)) as [R1 R2];
    [apply list_elem_of_In, in_map_iff; eauto|exact R|].
  destruct (min_max_bound (map MargemLucro rs) (MargemLucro r)) as [M1 M2];
    [apply list_elem_of_In, in_map_iff; eauto|exact M|].
  unfold passes, baseline_filters, Num.geb. cbn [f_year_range f_regions
    f_revenue_range f_margin_range fst snd].
  rewrite Y1, Y2, R1, R2, M1, M2, !andb_true_r.
  apply bool_decide_eq_true. unfold sorted.
  rewrite sort_by_perm, elem_of_unique.
  apply list_elem_of_In, in_map_iff. eauto.
Qed.

Lemma view_rows_present (rs : list row) (f : filters) :
  Forall (fun r => Num.is_nan (Receita (base_row r)) = false
                   /\ Num.is_nan (MargemLucro (base_row r)) = false)
    (df_filtered rs f).
Proof.
  apply Forall_forall. intros r Hr.
  assert (H : base_row r ∈ map base_row (df_filtered rs f)).
  { apply list_elem_of_In, in_map, list_elem_of_In, Hr. }
  rewrite df_filtered_rowwise in H.
  apply list_elem_of_In, filter_In in H. destruct H as [_ H].
  apply passes_needs_revenue_and_margin in H.
  unfold has_revenue_and_margin, not_missing in H.
  apply andb_true_iff in H as [R M].
  now rewrite negb_true_iff in R, M.
Qed.

(** X1.  Whatever the filter state, every record of the filtered view
    has a revenue and a profit margin: a record whose margin (or
    revenue) is missing fails both comparisons of its range and is left
    out of every view. *)
Theorem view_rows_have_revenue_and_margin (rs : list row) (f : filters) :
  Forall (fun r => Num.is_nan (Receita (base_row r)) = false
                   /\ Num.is_nan (MargemLucro (base_row r)) = false)
    (df_filtered rs f)
  /\ (forall r, r ∈ rs ->
                (Num.is_nan (Receita r) = true \/ Num.is_nan (MargemLucro r) = true) ->
                r ∉ map base_row (df_filtered rs f)).
Proof.
  split; [apply view_rows_present|].
  intros r _ N Hin.
  apply list_elem_of_In, in_map_iff in Hin. destruct Hin as (x & <- & Hx).
  pose proof (view_rows_present rs f) as H. rewrite Forall_forall in H.
  apply list_elem_of_In, H in Hx. destruct Hx as [A B].
  destruct N; congruence.
Qed.

(** X2.  With the baseline as filter state (no widget moved, or after a
    reset) the view keeps, in table order, exactly the records that have
    a revenue and a margin: the observed extrema and the full region
    list exclude nothing else, and they do exclude the records with a
    missing margin, so that even the unfiltered view can be shorter than
    the table. *)
Theorem baseline_view_keeps_rows_with_revenue_and_margin (rs : list row) :
  map base_row (df_filtered rs (baseline_filters rs))
  = List.filter has_revenue_and_margin rs.
Proof.
  rewrite df_filtered_rowwise. apply List.filter_ext_in. intros r Hr.
  destruct (has_revenue_and_margin r) eqn:E.
  - apply passes_baseline; [now apply list_elem_of_In|exact E].
  - destruct (passes (baseline_filters rs) r) eqn:P; [|reflexivity].
    apply passes_needs_revenue_and_margin in P. congruence.
Qed.

(** ** The session across runs *)

Lemma bind_raise {A B : Type} (e : exn) (k : A -> M B) : bind (raise e) k = raise e.
Proof. reflexivity. Qed.

Section SessionFacts.

Import Session.

(** X4.  The baseline is stored once per session.  After it has been
    stored, lines 47-53 leave the session as it is on every later run,
    whatever table that run has loaded: the baseline is not recomputed
    when the data change. *)
Theorem baseline_is_stored_once
  (df df' : frame row) (st0 st1 : state) (us : list (widget * pyobj)) :
  contains "reset" st0 = false ->
  init_reset df st0 = ret st1 ->
  init_reset df' (user_updates us st1) = ret (user_updates us st1)
  /\ forall w, baseline_value (key_of w) (user_updates us st1)
               = ret (baseline_of (rows df) w).
Proof.
  intros C I.
  pose proof (init_holds_baseline df st0 st1 C I) as H1.
  pose proof (user_updates_holds_baseline _ _ us _ H1) as H2.
  split.
  - unfold init_reset, contains. destruct H2 as [B _].
    rewrite B. now rewrite bool_decide_eq_true_2 by eauto.
  - intros w. now destruct (baseline_value_holds _ _ _ w H2).
Qed.

End SessionFacts.

(** X4 at a concrete input. *)
Lemma baseline_is_stored_once_witness :
  init_reset empty_frame
    (Session.user_updates [(Session.regions, OList ["EU"])] sample_session)
  = ret (Session.user_updates [(Session.regions, OList ["EU"])] sample_session)
  /\ forall w, Session.baseline_value (Session.key_of w)
                 (Session.user_updates [(Session.regions, OList ["EU"])] sample_session)
               = ret (baseline_of (rows sample_df) w).
Proof.
  apply (baseline_is_stored_once sample_df empty_frame Session.fresh sample_session).
  - reflexivity.
  - vm_compute. reflexivity.
Defined.

(** ** Columns and loaded tables *)

Lemma col_present {R A : Type} (name : string) (field : R -> A) (df : frame R) :
  name ∈ columns df -> col name field df = ret (map field (rows df)).
Proof. intros H. unfold col. now rewrite bool_decide_eq_true_2. Qed.

Section LoadFacts.

Variable int_of_text : string -> option Z.
Variable float_of_text : string -> option num.

Lemma load_body_success (src : source) (out : list element) (df : frame row) :
  load_body int_of_text float_of_text src = (out, inr df) ->
  exists sh anos,
    src = Sheet sh
    /\ mapM (astype_int int_of_text) (map Raw.Ano (rows sh)) = ret anos
    /\ ("Ano" ∈ columns sh /\ "Receita" ∈ columns sh /\ "MargemLucro" ∈ columns sh
        /\ "Emissao_Carbono" ∈ columns sh /\ "ESG_Geral" ∈ columns sh)
    /\ df = {| columns := columns sh;
               rows := dropna (zip_rows (rows sh) anos
                         (map (fun r => to_numeric float_of_text (Raw.Receita r)) (rows sh))
                         (map (fun r => to_numeric float_of_text (Raw.MargemLucro r)) (rows sh))
                         (map (fun r => to_numeric float_of_text (Raw.Emissao_Carbono r)) (rows sh))) |}.
Proof.
  unfold load_body. destruct src as [msg|sh]; [discriminate|].
  simpl read_excel. rewrite bind_ret.
  unfold col at 1. case_bool_decide as HA; [|discriminate]. rewrite bind_ret.
  pose proof (silent_mapM (astype_int int_of_text) (map Raw.Ano (rows sh))
                (silent_astype_int int_of_text)) as S.
  destruct (mapM (astype_int int_of_text) (map Raw.Ano (rows sh)))
    as [o [e|anos]] eqn:E; [discriminate|].
  unfold silent in S. simpl in S. subst o.
  change ([], inr anos) with (@ret (list Z) anos). rewrite bind_ret.
  unfold col.
  repeat case_bool_decide;
    repeat (rewrite bind_ret || rewrite bind_raise); try discriminate.
  rewrite !map_map. intros [= _ <-].
  exists sh, anos. repeat split; first [assumption | reflexivity].
Qed.

Lemma load_data_success (src : source) (df : frame row) :
  load_data int_of_text float_of_text src = ret df ->
  load_body int_of_text float_of_text src = ret df.
Proof.
  unfold load_data, try_except.
  pose proof (silent_load_body int_of_text float_of_text src) as S.
  destruct (load_body int_of_text float_of_text src) as [out [e|df']].
  - simpl. intros [= H _]. now apply app_eq_nil in H as [_ H].
  - unfold silent in S. simpl in S. subst out. intros [= <-]. reflexivity.
Qed.

Lemma loaded_columns (src : source) (df : frame row) :
  load_data int_of_text float_of_text src = ret df ->
  "Ano" ∈ columns df /\ "Receita" ∈ columns df /\ "MargemLucro" ∈ columns df
  /\ "Emissao_Carbono" ∈ columns df /\ "ESG_Geral" ∈ columns df.
Proof.
  intros H. apply load_data_success, load_body_success in H.
  destruct H as (sh & anos & _ & _ & C & ->). exact C.
Qed.

End LoadFacts.

(** ** More on loading *)

Lemma mapM_fails {A B : Type} (f : A -> M B) (l : list A) (a : A) (e0 : exn) :
  a ∈ l -> snd (f a) = inl e0 -> exists e, snd (mapM f l) = inl e.
Proof.
  intros Ha Hf. induction l as [|x l IH]; [now apply elem_of_nil in Ha|].
  simpl. unfold bind at 1. destruct (f x) as [o1 [e|b]] eqn:Fx; [simpl; eauto|].
  apply elem_of_cons in Ha as [->|Ha].
  { rewrite Fx in Hf. discriminate. }
  destruct (IH Ha) as [e He].
  unfold bind at 1. destruct (mapM f l) as [o2 [e'|bs]]; simpl in *; [eauto|discriminate].
Qed.

Section LoadMore.

Variable int_of_text : string -> option Z.
Variable float_of_text : string -> option num.

Lemma zip_rows_names (rs : list Raw.row) (anos : list Z) (recs margs emis : list num) :
  map Nome_Compania (zip_rows rs anos recs margs emis)
  `sublist_of` map Raw.Nome_Compania rs.
Proof.
  revert anos recs margs emis.
  induction rs as [|r rs IH]; intros anos recs margs emis; [constructor|].
  destruct anos, recs, margs, emis; simpl; try apply sublist_nil_l.
  constructor. apply IH.
Qed.

Lemma filter_names_sublist {A B : Type} (f : A -> B) (p : A -> bool) (l : list A) :
  map f (List.filter p l) `sublist_of` map f l.
Proof.
  induction l as [|x l IH]; simpl; [constructor|].
  destruct (p x); simpl; now constructor.
Qed.

(** X7.  [load_data] never lets an exception out.  When its body runs
    through, it returns the table and renders nothing; when the body
    raises, it renders one error message with the text of the exception
    and returns the DataFrame without columns. *)
Theorem load_data_catches_every_exception (src : source) :
  crashed (load_data int_of_text float_of_text src) = None
  /\ match snd (load_body int_of_text float_of_text src) with
     | inr df => load_data int_of_text float_of_text src = ret df
     | inl e =>
         load_data int_of_text float_of_text src
         = ([Error ("Erro ao carregar dados: " +:+ exn_str e)], inr empty_frame)
     end.
Proof.
  pose proof (silent_load_body int_of_text float_of_text src) as S.
  pose proof (load_data_failure int_of_text float_of_text src) as F.
  unfold load_data, try_except, crashed in *. unfold silent in S.
  destruct (load_body int_of_text float_of_text src) as [out [e|df]];
    simpl in *; subst out.
  - split; [reflexivity|]. now apply F.
  - split; reflexivity.
Qed.

(** X8.  Whatever [load_data] returns, with or without an error
    message, every row of the returned table has an overall score and a
    revenue, and the company names of its rows are, in sheet order,
    names of rows of the sheet: rows are dropped, never added or
    reordered. *)
Theorem loaded_rows_have_score_and_revenue
  (src : source) (out : list element) (df : frame row) :
  load_data int_of_text float_of_text src = (out, inr df) ->
  Forall (fun r => Num.is_nan (ESG_Geral r) = false
                   /\ Num.is_nan (Receita r) = false) (rows df)
  /\ (forall sh, src = Sheet sh ->
        map Nome_Compania (rows df) `sublist_of` map Raw.Nome_Compania (rows sh)).
Proof.
  unfold load_data, try_except.
  destruct (load_body int_of_text float_of_text src) as [o [e|df']] eqn:B.
  - simpl. intros [= _ <-]. split; [constructor|].
    intros sh _. apply sublist_nil_l.
  - intros [= <- <-]. apply load_body_success in B.
    destruct B as (sh & anos & -> & _ & _ & ->). simpl. split.
    + apply Forall_forall. intros r Hr.
      apply list_elem_of_In, filter_In in Hr. destruct Hr as [_ Hr].
      apply andb_true_iff in Hr as [A B].
      now rewrite negb_true_iff in A, B.
    + intros sh' [= <-]. unfold dropna.
      etransitivity; [apply filter_names_sublist|apply zip_rows_names].
Qed.

(** X9.  One year cell that [astype(int)] cannot convert (a blank cell,
    an infinite value, a text that is not an integer) makes the whole
    load fail: [load_data] renders an error message and returns the
    DataFrame without columns, so that no row of the sheet is kept. *)
Theorem one_bad_year_cell_discards_the_table
  (sh : frame Raw.row) (raw : Raw.row) (e0 : exn) :
  raw ∈ rows sh ->
  snd (astype_int int_of_text (Raw.Ano raw)) = inl e0 ->
  exists e,
    load_data int_of_text float_of_text (Sheet sh)
    = ([Error ("Erro ao carregar dados: " +:+ exn_str e)], inr empty_frame).
Proof.
  intros Hr Hc.
  assert (F : exists e, snd (load_body int_of_text float_of_text (Sheet sh)) = inl e).
  { unfold load_body. simpl read_excel. rewrite bind_ret. unfold col at 1.
    case_bool_decide; [|rewrite bind_raise; simpl; eauto].
    rewrite bind_ret.
    destruct (mapM_fails (astype_int int_of_text) (map Raw.Ano (rows sh))
                (Raw.Ano raw) e0) as [e He]; [|exact Hc|].
    { apply list_elem_of_In, in_map, list_elem_of_In, Hr. }
    unfold bind at 1.
    destruct (mapM (astype_int int_of_text) (map Raw.Ano (rows sh)))
      as [o [e'|anos]]; simpl in *; [eauto|discriminate]. }
  destruct F as [e F]. exists e. now apply load_data_failure.
Qed.

End LoadMore.

(** X8 at a concrete input: the row whose revenue cell is a text that
    is not a number is dropped, the other row is kept. *)
Lemma loaded_rows_witness :
  exists out df,
    load_data (fun _ => None) reads_ten (Sheet partial_sheet) = (out, inr df)
    /\ map Nome_Compania (rows df) = ["Acme"]
    /\ Forall (fun r => Num.is_nan (ESG_Geral r) = false
                        /\ Num.is_nan (Receita r) = false) (rows df)
    /\ (forall sh, Sheet partial_sheet = Sheet sh ->
          map Nome_Compania (rows df) `sublist_of` map Raw.Nome_Compania (rows sh)).
Proof.
  eexists _, _. split; [vm_compute; reflexivity|].
  split; [reflexivity|].
  apply (loaded_rows_have_score_and_revenue (fun _ => None) reads_ten
           (Sheet partial_sheet) []).
  vm_compute. reflexivity.
Defined.

(** X9 at a concrete input: a sheet whose only row has a blank year. *)
Lemma one_bad_year_cell_witness :
  exists e,
    load_data (fun _ => None) reads_ten
      (Sheet {| columns := all_columns;
                rows := [raw_observation "Acme" "NA" 2020 100 50 (Raw.CInt 10);
                         {| Raw.Nome_Compania := "Beta"; Raw.Regiao := "EU";
                            Raw.Ano := Raw.CFloat NaN;
                            Raw.Receita := Raw.CInt 200;
                            Raw.MargemLucro := Raw.CInt 10;
                            Raw.Emissao_Carbono := Raw.CInt 5;
                            Raw.ESG_Geral := Fin 80; Raw.ESG_Ambiental := Fin 40;
                            Raw.ESG_Social := Fin 50;
                            Raw.ESG_Governanca := Fin 60 |}] |})
    = ([Error ("Erro ao carregar dados: " +:+ exn_str e)], inr empty_frame).
Proof.
  eapply (one_bad_year_cell_discards_the_table (fun _ => None) reads_ten).
  - apply list_elem_of_further, list_elem_of_here.
  - reflexivity.
Defined.

(** ** Rendering *)



Lemma with_column_elem (name c : string) (cols : list string) :
  c ∈ with_column name cols <-> c = name \/ c ∈ cols.
Proof.
  unfold with_column. case_bool_decide.
  - split; [auto|]. intros [->|H']; assumption.
  - rewrite elem_of_app, list_elem_of_singleton. tauto.
Qed.








Lemma render_without_columns (df : frame row) :
  render df empty_frame = ([metric_count (rows df) []], inl (KeyError "ESG_Geral")).
Proof. reflexivity. Qed.

(** X12.  The filter step never lets an exception out.  Either it
    renders nothing and hands on a frame that has the intensity column,
    or it renders one error message and hands on the DataFrame without
    columns; in that case the cards that follow raise [KeyError] on
    ['ESG_Geral'] right after the count card, and nothing catches it. *)
Theorem filter_step_catches_then_cards_raise
  (df : frame row) (yr rg rr mr : pyobj) :
  exists out v,
    apply_filters df yr rg rr mr = (out, inr v)
    /\ ((out = [] /\ "Emissao_por_Receita" ∈ columns v)
        \/ (exists e,
              out = [Error ("Erro ao filtrar dados: " +:+ exn_str e)]
              /\ v = empty_frame
              /\ render df v
                 = ([metric_count (rows df) []], inl (KeyError "ESG_Geral")))).
Proof.
  unfold apply_filters, try_except, col, as_range, as_regions.
  repeat case_bool_decide; destruct yr, rg, rr, mr;
    repeat (rewrite bind_ret || rewrite bind_raise);
    (eexists _, _; split; [reflexivity|]);
    first [ right; eexists; repeat split; reflexivity
          | left; split; [reflexivity|]; simpl; apply with_column_elem; now left ].
Qed.

(** ** More on the filter *)

Lemma df_filtered_as_filter (rs : list row) (f : filters) :
  df_filtered rs f = add_intensity (List.filter (passes f) rs).
Proof. unfold df_filtered. now rewrite mask_rowwise, select_map_filter. Qed.

Lemma passes_narrower (f' f : filters) (r : row) :
  narrower f' f -> passes f' r = true -> passes f r = true.
Proof.
  intros ([Y1 Y2] & G & [R1 R2] & [M1 M2]).
  rewrite !passes_satisfies. unfold satisfies, in_range.
  intros ([A1 A2] & B & [C1 C2] & [D1 D2]).
  repeat split; try (eapply leb_trans; eassumption).
  now apply G.
Qed.

(** X13.  Filtering is idempotent and never adds a record: the filter
    applied to the records of a view gives that view again, and a view
    has at most as many records as the table, so that the count delta,
    when there is one, is negative. *)
Theorem filter_is_idempotent_and_never_grows (rs : list row) (f : filters) :
  df_filtered (map base_row (df_filtered rs f)) f = df_filtered rs f
  /\ (length (df_filtered rs f) <= length rs)%nat
  /\ (forall d, delta rs (df_filtered rs f) = Some d -> d < 0).
Proof.
  assert (L : (length (df_filtered rs f) <= length rs)%nat).
  { rewrite length_df_filtered. apply List.filter_length_le. }
  split; [|split; [exact L|]].
  - rewrite df_filtered_rowwise, !df_filtered_as_filter. now rewrite filter_idem.
  - intros d. unfold delta.
    destruct (Nat.eqb _ _) eqn:E; simpl; [discriminate|].
    apply Nat.eqb_neq in E. intros [= <-]. lia.
Qed.

(** X14.  Narrowing the filter state (ranges inside the current ranges,
    regions among the current regions) gives the view that the narrower
    state selects from the records of the current view; in particular
    its records are a subsequence of those of the current view. *)
Theorem narrowing_filters_the_current_view (rs : list row) (f' f : filters) :
  narrower f' f ->
  df_filtered rs f' = df_filtered (map base_row (df_filtered rs f)) f'
  /\ sublist (map base_row (df_filtered rs f')) (map base_row (df_filtered rs f)).
Proof.
  intros N.
  assert (E : List.filter (passes f') (List.filter (passes f) rs)
              = List.filter (passes f') rs).
  { apply filter_filter_absorb. intros r. now apply passes_narrower. }
  split.
  - now rewrite (df_filtered_rowwise rs f), !df_filtered_as_filter, E.
  - rewrite !df_filtered_rowwise, <- E, filter_passes_satisfies.
    apply sublist_filter.
Qed.

(** X14 at a concrete input: one year of the example's two. *)
Lemma narrowing_filters_witness :
  df_filtered sample_base only_2020
  = df_filtered (map base_row (df_filtered sample_base example_filter)) only_2020
  /\ sublist (map base_row (df_filtered sample_base only_2020))
       (map base_row (df_filtered sample_base example_filter)).
Proof.
  apply (narrowing_filters_the_current_view sample_base only_2020 example_filter).
  repeat split; reflexivity.
Defined.

(** ** More on the ranking *)

Section RankingMore.

Variable metric : vrow -> num.

Lemma nlargest_full (v : list vrow) :
  nlargest (length v) metric v
  = sort_by (desc metric) (present metric v) ++ missing metric v.
Proof. unfold nlargest. apply take_ge. now rewrite ranked_length. Qed.

(** X15.  The rows of a ranking are records of the view, and no record
    that the cut leaves out ranks before one that it keeps: for a kept
    row [x] and a row [y] of the rest of the full ranking, the metric of
    [y] is at most that of [x], or is missing. *)
Theorem ranking_keeps_the_best_rows (n : nat) (v : list vrow) :
  (forall x, x ∈ nlargest n metric v -> x ∈ v)
  /\ (forall x y, x ∈ nlargest n metric v ->
                  y ∈ drop n (nlargest (length v) metric v) ->
                  descending metric x y).
Proof.
  rewrite nlargest_full. unfold nlargest.
  set (full := sort_by (desc metric) (present metric v) ++ missing metric v).
  assert (P : full ≡ₚ v).
  { unfold full. rewrite sort_by_perm. unfold present, missing.
    induction v as [|r v IH]; simpl; [reflexivity|].
    destruct (Num.is_nan (metric r)); simpl.
    - now rewrite <- Permutation_middle, IH.
    - now rewrite IH. }
  split.
  - intros x Hx. rewrite <- P. eapply elem_of_sublist; [exact Hx|apply sublist_take].
  - intros x y Hx Hy.
    pose proof (ranked_sorted metric v) as S. fold full in S.
    rewrite <- (take_drop n full) in S.
    eapply StronglySorted_app_1_elem_of; eauto.
Qed.

(** X16.  A record whose metric is missing enters a ranking only when
    fewer than [n] records of the view have the metric: as soon as [n]
    records have it, every row of the ranking has it. *)
Theorem ranking_takes_missing_rows_last (n : nat) (v : list vrow) :
  (n <= length (present metric v))%nat ->
  Forall (fun r => Num.is_nan (metric r) = false) (nlargest n metric v).
Proof.
  intros H. unfold nlargest.
  rewrite take_app_le by now rewrite length_sort_by.
  apply Forall_forall. intros x Hx.
  apply (fun H => elem_of_sublist _ _ _ H (sublist_take _ _)) in Hx.
  rewrite sort_by_perm in Hx.
  unfold present in Hx. apply list_elem_of_In, filter_In in Hx.
  destruct Hx as [_ Hx]. now apply negb_true_iff in Hx.
Qed.

End RankingMore.

(** X16 at a concrete input: the second of the three records of the
    view has no emission figure; two records have one, and the ranking
    of the two largest emitters leaves the second record out. *)
Lemma ranking_takes_missing_rows_last_witness :
  map (fun r => Num.is_nan (m_Emissao_Carbono r))
    (df_filtered gappy_base example_filter) = [false; true; false]
  /\ Forall (fun r => Num.is_nan (m_Emissao_Carbono r) = false)
       (nlargest 2 m_Emissao_Carbono (df_filtered gappy_base example_filter)).
Proof.
  split; [reflexivity|].
  apply (ranking_takes_missing_rows_last m_Emissao_Carbono 2).
  vm_compute. lia.
Defined.

(** ** More on the trend *)

Lemma length_group_cons (k : group_key) (r : vrow) (v : list vrow) :
  length (group k (r :: v))
  = ((if key_eqb (key_of_row r) k then 1 else 0) + length (group k v))%nat.
Proof. unfold group. simpl. now destruct (key_eqb (key_of_row r) k). Qed.

Lemma sum_list_map_add {A : Type} (f g : A -> nat) (l : list A) :
  sum_list (map (fun k => f k + g k)%nat l)
  = (sum_list (map f l) + sum_list (map g l))%nat.
Proof. induction l as [|k l IH]; simpl; [reflexivity|]. rewrite IH. lia. Qed.

Lemma sum_indicator (x : group_key) (ks : list group_key) :
  NoDup ks ->
  sum_list (map (fun k => if key_eqb x k then 1 else 0)%nat ks)
  = (if bool_decide (x ∈ ks) then 1 else 0)%nat.
Proof.
  induction 1 as [|k ks Hk ND IH]; [reflexivity|].
  simpl. rewrite IH.
  destruct (key_eqb x k) eqn:E.
  - apply key_eqb_eq in E. subst x.
    rewrite (bool_decide_eq_true_2 (k ∈ k :: ks)) by apply list_elem_of_here.
    now rewrite (bool_decide_eq_false_2 (k ∈ ks)) by assumption.
  - assert (x <> k) by (intros ->; rewrite (proj2 (key_eqb_eq k k)) in E; congruence).
    destruct (bool_decide (x ∈ ks)) eqn:D.
    + apply bool_decide_eq_true in D.
      rewrite (bool_decide_eq_true_2 (x ∈ k :: ks)); [reflexivity|].
      now apply list_elem_of_further.
    + apply bool_decide_eq_false in D.
      rewrite (bool_decide_eq_false_2 (x ∈ k :: ks)); [reflexivity|].
      intros D'. apply elem_of_cons in D' as [?|?]; contradiction.
Qed.

Lemma sum_group_sizes (ks : list group_key) (v : list vrow) :
  NoDup ks -> Forall (fun r => key_of_row r ∈ ks) v ->
  sum_list (map (fun k => length (group k v)) ks) = length v.
Proof.
  intros ND H. induction H as [|r v Hr _ IH].
  - clear ND. induction ks as [|k ks IHk]; [reflexivity|]. exact IHk.
  - simpl. rewrite <- IH.
    assert (E : forall l : list group_key,
               sum_list (map (fun k => length (group k (r :: v))) l)
               = (sum_list (map (fun k => if key_eqb (key_of_row r) k then 1 else 0)%nat l)
                  + sum_list (map (fun k => length (group k v)) l))%nat).
    { intros l.
      rewrite (map_ext _ _ (fun k => length_group_cons k r v)).
      apply sum_list_map_add. }
    rewrite E, (sum_indicator _ _ ND), bool_decide_eq_true_2 by exact Hr.
    reflexivity.
Qed.

(** X17.  The groups of the trend table partition the view by size:
    every record of the view is counted in the group of its own (year,
    region) pair, which has a row, and the numbers of records that the
    rows aggregate add up to the number of records of the view. *)
Theorem trend_groups_cover_the_view (v : list vrow) :
  Forall (fun r => key_of_row r ∈ map t_key (df_trend v)
                   /\ r ∈ group (key_of_row r) v) v
  /\ sum_list (group_sizes v) = length v.
Proof.
  split.
  - apply Forall_forall. intros r Hr. split.
    + rewrite trend_keys. apply elem_of_group_keys. eauto.
    + unfold group. apply list_elem_of_In, filter_In.
      split; [now apply list_elem_of_In|now apply key_eqb_eq].
  - unfold group_sizes, df_trend. rewrite map_map.
    rewrite <- (sum_group_sizes (group_keys v) v).
    + reflexivity.
    + apply NoDup_group_keys.
    + apply Forall_forall. intros r Hr. apply elem_of_group_keys. eauto.
Qed.

(** ** The region list *)

(** X19.  The region list of the baseline, which also is the option list
    of the region selector, holds each region of the table once, in
    strictly ascending order of the names, and nothing else. *)
Theorem region_options_are_the_sorted_distinct_regions (rs : list row) :
  StronglySorted (fun a b => String.ltb a b = true) (sorted (unique (map Regiao rs)))
  /\ NoDup (sorted (unique (map Regiao rs)))
  /\ (forall g, g ∈ sorted (unique (map Regiao rs)) <-> exists r, r ∈ rs /\ Regiao r = g).
Proof.
  assert (ND : NoDup (sorted (unique (map Regiao rs)))).
  { unfold sorted. rewrite sort_by_perm. apply NoDup_unique_go. }
  split; [|split; [exact ND|]].
  - apply (StronglySorted_weaken (fun x y => String.leb x y = true /\ x <> y)).
    + intros x y [L N]. apply string_leb_cases in L as [->|L]; [congruence|exact L].
    + apply StronglySorted_strict; [|exact ND].
      apply (sort_by_sorted String.leb (fun _ => True)).
      * intros x y _ _ F. destruct (String.leb_total x y); congruence.
      * apply string_leb_trans.
      * apply Forall_forall. auto.
  - intros g. unfold sorted. rewrite sort_by_perm, elem_of_unique.
    rewrite list_elem_of_In, in_map_iff. setoid_rewrite <- list_elem_of_In.
    split; intros (r & A & B); eauto.
Qed.

(** ** Rankings of a filtered view *)

Lemma filter_all_true {A : Type} (p : A -> bool) (l : list A) :
  Forall (fun x => p x = true) l -> List.filter p l = l.
Proof.
  induction 1 as [|x l Hx _ IH]; [reflexivity|]. simpl. now rewrite Hx, IH.
Qed.

Lemma filter_all_false_on {A : Type} (p : A -> bool) (l : list A) :
  Forall (fun x => p x = false) l -> List.filter p l = [].
Proof.
  induction 1 as [|x l Hx _ IH]; [reflexivity|]. simpl. now rewrite Hx.
Qed.

Lemma nlargest_without_missing (metric : vrow -> num) (n : nat) (v : list vrow) :
  Forall (fun r => Num.is_nan (metric r) = false) v ->
  Forall (fun r => Num.is_nan (metric r) = false) (nlargest n metric v)
  /\ StronglySorted (fun x y => Num.leb (metric y) (metric x) = true)
       (nlargest n metric v).
Proof.
  intros H.
  assert (P : present metric v = v).
  { unfold present. apply filter_all_true.
    eapply Forall_impl; [exact H|]. intros r Hr. simpl in Hr. now rewrite Hr. }
  assert (M : missing metric v = []).
  { unfold missing. apply filter_all_false_on. exact H. }
  unfold nlargest. rewrite P, M, app_nil_r. split.
  - apply Forall_forall. intros x Hx.
    apply (fun H => elem_of_sublist _ _ _ H (sublist_take _ _)) in Hx.
    rewrite sort_by_perm in Hx. rewrite Forall_forall in H. now apply H.
  - apply StronglySorted_take.
    apply (sort_by_sorted (desc metric) (fun r => Num.is_nan (metric r) = false)).
    + unfold desc. intros x y Hx Hy. now apply leb_total.
    + unfold desc. intros x y z H1 H2. eapply leb_trans; eauto.
    + exact H.
Qed.

Lemma view_rows_come_from_the_table (rs : list row) (f : filters) (P : row -> Prop) :
  Forall P rs -> Forall (fun r => P (base_row r)) (df_filtered rs f).
Proof.
  intros H. apply Forall_forall. intros r Hr.
  assert (Hb : base_row r ∈ map base_row (df_filtered rs f)).
  { apply list_elem_of_In, in_map, list_elem_of_In, Hr. }
  rewrite df_filtered_rowwise in Hb.
  apply list_elem_of_In, filter_In in Hb. destruct Hb as [Hb _].
  rewrite Forall_forall in H. now apply H, list_elem_of_In.
Qed.

(** X21.  On a table whose rows all have an overall score, as
    [load_data] returns it, and whatever the filter state, the ESG
    ranking and the revenue ranking of the view hold no row with a
    missing metric and are in descending order of the metric in the
    plain sense: of two rows, the later never has the greater value. *)
Theorem score_and_revenue_rankings_are_plainly_descending
  (rs : list row) (f : filters) :
  Forall (fun r => Num.is_nan (ESG_Geral r) = false) rs ->
  StronglySorted (fun x y => Num.leb (m_ESG_Geral y) (m_ESG_Geral x) = true)
    (top_esg (df_filtered rs f))
  /\ StronglySorted (fun x y => Num.leb (m_Receita y) (m_Receita x) = true)
       (top_revenue (df_filtered rs f))
  /\ Forall (fun r => Num.is_nan (m_ESG_Geral r) = false) (top_esg (df_filtered rs f))
  /\ Forall (fun r => Num.is_nan (m_Receita r) = false)
       (top_revenue (df_filtered rs f)).
Proof.
  intros H.
  destruct (nlargest_without_missing m_ESG_Geral 5 (df_filtered rs f)) as [A1 A2].
  { now apply (view_rows_come_from_the_table rs f
                 (fun r => Num.is_nan (ESG_Geral r) = false)). }
  destruct (nlargest_without_missing m_Receita 5 (df_filtered rs f)) as [B1 B2].
  { eapply Forall_impl; [apply (view_rows_present rs f)|].
    intros r [R _]. exact R. }
  auto.
Qed.

(** X21 at a concrete input. *)
Lemma score_and_revenue_rankings_witness :
  StronglySorted (fun x y => Num.leb (m_ESG_Geral y) (m_ESG_Geral x) = true)
    (top_esg (df_filtered sample_base example_filter))
  /\ StronglySorted (fun x y => Num.leb (m_Receita y) (m_Receita x) = true)
       (top_revenue (df_filtered sample_base example_filter))
  /\ Forall (fun r => Num.is_nan (m_ESG_Geral r) = false)
       (top_esg (df_filtered sample_base example_filter))
  /\ Forall (fun r => Num.is_nan (m_Receita r) = false)
       (top_revenue (df_filtered sample_base example_filter)).
Proof.
  apply (score_and_revenue_rankings_are_plainly_descending sample_base example_filter).
  repeat constructor.
Defined.

(** ** The numeral of the count card *)










(** ** A sheet without its region column *)

Section SchemaFacts.

Variable int_of_text : string -> option Z.
Variable float_of_text : string -> option num.

(** X24.  A workbook that loads but has no ['Regiao'] column passes
    [load_data], which never reads that column, without a message; the
    first run of a new session then ends on line 50 with [KeyError] on
    ['Regiao'], which nothing catches, before anything is rendered,
    whether or not the reset button was pressed. *)
Theorem missing_region_column_ends_the_first_run
  (src : source) (df : frame row) (clicked : bool) :
  load_data int_of_text float_of_text src = ret df ->
  "Regiao" ∉ columns df ->
  script int_of_text float_of_text src clicked Session.fresh
  = ([], inl (KeyError "Regiao")).
Proof.
  intros L N.
  destruct (loaded_columns int_of_text float_of_text src df L) as (A & _).
  assert (P : prelude int_of_text float_of_text src Session.fresh
              = ([], inl (KeyError "Regiao"))).
  { unfold prelude. rewrite L, bind_ret. unfold init_reset.
    change (Session.contains "reset" Session.fresh) with false. cbv iota.
    rewrite (col_present "Ano") by exact A. rewrite bind_ret.
    unfold col at 1. now rewrite bool_decide_eq_false_2 by exact N. }
  unfold script, run_once. rewrite P. now destruct clicked.
Qed.

End SchemaFacts.

(** X24 at a concrete input: the sample sheet without the label. *)
Lemma missing_region_column_witness :
  script (fun _ => None) reads_ten
    (Sheet {| columns := List.filter (fun c => negb (String.eqb c "Regiao")) all_columns;
              rows := rows sample_sheet |})
    false Session.fresh
  = ([], inl (KeyError "Regiao")).
Proof.
  apply (missing_region_column_ends_the_first_run (fun _ => None) reads_ten _
           {| columns := List.filter (fun c => negb (String.eqb c "Regiao")) all_columns;
              rows := sample_base |}).
  - vm_compute. reflexivity.
  - apply (bool_decide_unpack _). vm_compute. exact I.
Defined.

(** ** The filter judges each record on its own *)

Lemma add_intensity_app (rs1 rs2 : list row) :
  add_intensity (rs1 ++ rs2) = add_intensity rs1 ++ add_intensity rs2.
Proof. now rewrite !add_intensity_rowwise, map_app. Qed.

(** X25.  For a given filter state a record is kept or left out, and
    gets its intensity, on its own values, whatever the other records
    are: the view of two tables put one after the other is the view of
    the first followed by the view of the second. *)
Theorem filter_distributes_over_concatenation (rs1 rs2 : list row) (f : filters) :
  df_filtered (rs1 ++ rs2) f = df_filtered rs1 f ++ df_filtered rs2 f.
Proof.
  now rewrite !df_filtered_as_filter, List.filter_app, add_intensity_app.
Qed.
